(** * QandaTransformersModelArtifact: a shallow embedding

    The Python class [QandaTransformersModelArtifact] packs, saves and
    reloads a bundle of three machine-learning objects (a question-answering
    model, its tokenizer and an embedder).  This file embeds the class as
    state-passing functions over an explicit world (the adapter object and
    the file system) and proves properties of [pack], [load], [save] and
    [get]. *)

From Stdlib Require Import String Ascii List Bool ZArith.
From stdpp Require Import base gmap strings.

Set Warnings "-register-all".
Local Open Scope string_scope.

(** ** Python values *)

(** An instance of a user or library class, as far as the adapter observes
    it: the class's [__module__] and [__name__], and the truth value of the
    object ([__bool__] / [__len__]). *)
Record instance := mk_instance {
  inst_id : nat;
  cls_module : string;
  cls_name : string;
  inst_truthy : bool
}.

Inductive value : Type :=
| VNone
| VBool (b : bool)
| VInt (n : Z)
| VStr (s : string)
| VList (xs : list value)
| VDict (d : gmap string value)
| VInst (o : instance).


(** [bool(v)]: the truth value Python gives an object in [not v]. *)
Definition truthy (v : value) : bool :=
  match v with
  | VNone => false
  | VBool b => b
  | VInt n => negb (n =? 0)%Z
  | VStr s => negb (String.eqb s EmptyString)
  | VList xs => match xs with [] => false | _ :: _ => true end
  | VDict d => negb (Nat.eqb (size d) 0)
  | VInst o => inst_truthy o
  end.

(** [type(v).__module__] *)
Definition type_module (v : value) : string :=
  match v with
  | VInst o => cls_module o
  | _ => "builtins"
  end.

(** [v.__class__.__name__] *)
Definition class_name (v : value) : string :=
  match v with
  | VNone => "NoneType"
  | VBool _ => "bool"
  | VInt _ => "int"
  | VStr _ => "str"
  | VList _ => "list"
  | VDict _ => "dict"
  | VInst o => cls_name o
  end.

(** [str(type(v))], the text that ['{}'.format(type(v))] inserts: classes of
    the [builtins] module print without their module. *)
Definition type_repr (v : value) : string :=
  if String.eqb (type_module v) "builtins"
  then "<class '" ++ class_name v ++ "'>"
  else "<class '" ++ type_module v ++ "." ++ class_name v ++ "'>".

(** [d.get(k)]: the value under [k], or [None]. *)
Definition dict_get (d : gmap string value) (k : string) : value :=
  match d !! k with
  | Some v => v
  | None => VNone
  end.

(** [s.startswith(p)] *)
Definition startswith (s p : string) : bool := String.prefix p s.

(** ** Exceptions *)

(** Exceptions of the Python runtime and of the third-party libraries
    (transformers, tensorflow, tensorflow_hub).  [EnvironmentError] is
    Python's alias of [OSError]; [cls] records the subclass that was raised
    ([FileNotFoundError], [IsADirectoryError], ...), all of which an
    [except EnvironmentError] clause catches.  [OtherError] stands for every
    class outside [OSError] and [AttributeError] that is not listed. *)
Inductive builtin_exc : Type :=
| NameError (msg : string)
| TypeError (msg : string)
| AttributeError (msg : string)
| ImportError (msg : string)
| EnvironmentError (cls : string) (msg : string)
| OtherError (cls : string) (msg : string).

(** The three bentoml exceptions the module imports, and everything else. *)
Inductive exn : Type :=
| InvalidArgument (msg : string)
| NotFound (msg : string)
| MissingDependencyException (msg : string)
| Raised (e : builtin_exc).

Coercion Raised : builtin_exc >-> exn.

(** ** Paths and the file system *)

(** Paths are POSIX path strings.  The file system holds the regular files
    (path to text) and the set of directories; two paths name the same entry
    when they are the same string. *)
Record filesystem := mk_fs {
  files : gmap string string;
  dirs : gset string
}.

Definition is_sep (c : ascii) : bool := Ascii.eqb c "/".

Fixpoint drop_while (f : ascii -> bool) (l : list ascii) : list ascii :=
  match l with
  | [] => []
  | c :: l' => if f c then drop_while f l' else l
  end.

(** [s.endswith('/')] *)
Definition ends_with_sep (s : string) : bool :=
  match rev (list_ascii_of_string s) with
  | c :: _ => is_sep c
  | [] => false
  end.

(** [os.path.join(a, b)] (posixpath) on two strings. *)
Definition path_join (a b : string) : string :=
  if startswith b "/" then b
  else if String.eqb a EmptyString || ends_with_sep a then a ++ b
  else a ++ "/" ++ b.

(** [os.path.dirname(p)]: everything up to the last separator, with the
    trailing separators removed unless nothing else is left. *)
Definition dirname (p : string) : string :=
  let head_r := drop_while (fun c => negb (is_sep c)) (rev (list_ascii_of_string p)) in
  if forallb is_sep head_r
  then string_of_list_ascii (rev head_r)
  else string_of_list_ascii (rev (drop_while is_sep head_r)).

(** The path and the directories above it, nearest first. *)
Fixpoint path_chain (fuel : nat) (p : string) : list string :=
  match fuel with
  | O => []
  | S fuel' =>
      if String.eqb p EmptyString || forallb is_sep (list_ascii_of_string p) then []
      else p :: path_chain fuel' (dirname p)
  end.

(** [os.path.isdir(p)] *)
Definition isdir (p : string) (f : filesystem) : bool := bool_decide (p ∈ dirs f).

Definition is_file (p : string) (f : filesystem) : bool :=
  match files f !! p with Some _ => true | None => false end.

(** The Python whitespace characters of the ASCII range, for [str.strip]. *)
Definition is_space (c : ascii) : bool :=
  let n := nat_of_ascii c in
  ((9 <=? n)%nat && (n <=? 13)%nat) || ((28 <=? n)%nat && (n <=? 32)%nat).

(** [s.strip()] *)
Definition strip (s : string) : string :=
  string_of_list_ascii
    (rev (drop_while is_space (rev (drop_while is_space (list_ascii_of_string s))))).

(** ** The adapter object and the world *)

(** The attributes of a [QandaTransformersModelArtifact]; [None] for a type
    name is Python's [None].  The base class [BentoServiceArtifact] belongs
    to bentoml, not to the repository; of it only the attribute [name] that
    its constructor stores is used. *)
Record artifact := mk_artifact {
  name : string;
  _model : value;
  _tokenizer_type : option string;
  _model_type : option string
}.

Record world := mk_world {
  self : artifact;
  fs : filesystem
}.

(** ** A state and exception monad

    A computation runs on a world and returns either the exception it raised
    or its result, together with the world it left behind: mutations made
    before a [raise] stay. *)
Definition M (A : Type) : Type := world -> (exn + A) * world.

Definition ret {A} (a : A) : M A := fun w => (inr a, w).

Definition raise {A} (e : exn) : M A := fun w => (inl e, w).

Definition bind {A B} (m : M A) (k : A -> M B) : M B :=
  fun w =>
    match m w with
    | (inr a, w') => k a w'
    | (inl e, w') => (inl e, w')
    end.

Notation "x <- c1 ;; c2" := (bind c1 (fun x => c2))
  (at level 100, c1 at next level, right associativity).
Notation "c1 ;; c2" := (bind c1 (fun _ => c2))
  (at level 100, right associativity).

(** [try: body / except ...: handler]; the handler re-raises what it does
    not catch. *)
Definition try_except {A} (body : M A) (handler : exn -> M A) : M A :=
  fun w =>
    match body w with
    | (inr a, w') => (inr a, w')
    | (inl e, w') => handler e w'
    end.

Definition get_self : M artifact := fun w => (inr (self w), w).
Definition put_self (a : artifact) : M unit :=
  fun w => (inr tt, {| self := a; fs := fs w |}).
Definition get_fs : M filesystem := fun w => (inr (fs w), w).
Definition put_fs (f : filesystem) : M unit :=
  fun w => (inr tt, {| self := self w; fs := f |}).

(** The result of a call into a library: an exception of the library or
    the runtime, or a value. *)
Definition lift {A} (r : builtin_exc + A) : M A :=
  match r with
  | inl e => raise (Raised e)
  | inr a => ret a
  end.

(** attribute assignments on [self] *)
Definition set_model (v : value) : M unit :=
  s <- get_self ;;
  put_self {| name := name s; _model := v;
              _tokenizer_type := _tokenizer_type s; _model_type := _model_type s |}.

Definition set_model_type (t : string) : M unit :=
  s <- get_self ;;
  put_self {| name := name s; _model := _model s;
              _tokenizer_type := _tokenizer_type s; _model_type := Some t |}.

Definition set_tokenizer_type (t : string) : M unit :=
  s <- get_self ;;
  put_self {| name := name s; _model := _model s;
              _tokenizer_type := Some t; _model_type := _model_type s |}.

(** ** File operations *)

Definition FileNotFoundError (p : string) : builtin_exc :=
  EnvironmentError "FileNotFoundError" ("No such file or directory: '" ++ p ++ "'").
Definition IsADirectoryError (p : string) : builtin_exc :=
  EnvironmentError "IsADirectoryError" ("Is a directory: '" ++ p ++ "'").
Definition NotADirectoryError (p : string) : builtin_exc :=
  EnvironmentError "NotADirectoryError" ("Not a directory: '" ++ p ++ "'").
Definition FileExistsError (p : string) : builtin_exc :=
  EnvironmentError "FileExistsError" ("File exists: '" ++ p ++ "'").

(** [open(p, 'w')]: the file is created or truncated when [p] is not a
    directory and the directory it lies in exists (a path without a
    directory part lies in the working directory).  The handle is the path. *)
Definition open_w (p : string) : M string :=
  f <- get_fs ;;
  if String.eqb p EmptyString then raise (FileNotFoundError p)
  else if isdir p f then raise (IsADirectoryError p)
  else if negb (String.eqb (dirname p) EmptyString) && negb (isdir (dirname p) f)
  then raise (if is_file (dirname p) f then NotADirectoryError p
              else FileNotFoundError p)
  else put_fs {| files := <[p := EmptyString]> (files f); dirs := dirs f |} ;; ret p.

(** [f.write(s)] on a handle opened for writing *)
Definition fwrite (h : string) (s : string) : M unit :=
  f <- get_fs ;;
  let old := match files f !! h with Some t => t | None => EmptyString end in
  put_fs {| files := <[h := old ++ s]> (files f); dirs := dirs f |}.

(** [f.write(x)] where [x] is an attribute that may still be [None] *)
Definition fwrite_attr (h : string) (x : option string) : M unit :=
  match x with
  | Some s => fwrite h s
  | None => raise (TypeError "write() argument must be str, not NoneType")
  end.

(** [open(p, 'r')]: a path that is no file cannot be opened; the error is
    [NotADirectoryError] when the directory part of the path is a regular
    file, as for [open(p, 'w')]. *)
Definition open_r (p : string) : M string :=
  f <- get_fs ;;
  if isdir p f then raise (IsADirectoryError p)
  else if is_file p f then ret p
  else raise (if is_file (dirname p) f then NotADirectoryError p
              else FileNotFoundError p).

(** [f.read()] *)
Definition fread (h : string) : M string :=
  f <- get_fs ;;
  ret (match files f !! h with Some t => t | None => EmptyString end).

(** [os.makedirs(p, exist_ok=True)]: creates [p] and the missing directories
    above it; fails when one of them is a regular file. *)
Definition makedirs (p : string) : M unit :=
  f <- get_fs ;;
  if String.eqb p EmptyString then raise (FileNotFoundError p)
  else
    let chain := path_chain (S (String.length p)) p in
    if existsb (fun q => is_file q f) chain then raise (FileExistsError p)
    else put_fs {| files := files f; dirs := dirs f ∪ list_to_set chain |}.

(** [os.path.join(a, b)] where [a] is any object: only a string is a path. *)
Definition os_path_join (a : value) (b : string) : M string :=
  match a with
  | VStr p => ret (path_join p b)
  | _ => raise (TypeError ("expected str, bytes or os.PathLike object, not "
                             ++ class_name a))
  end.

(** ** The module's name space and its collaborators *)

(** The names bound at module level by the import statements and the class
    statement (lines 1 to 19 of the source).  The module has no other
    binding, and the names it uses beyond these ([open], [isinstance],
    [getattr], [str], [type], [super]) are Python built-ins. *)
Definition module_globals : list string :=
  [ "os"; "import_module"; "tf"; "hub"; "InvalidArgument";
    "MissingDependencyException"; "NotFound"; "BentoServiceArtifact";
    "transformers"; "QandaTransformersModelArtifact" ].

(** Looking up, at run time, a name that is not a built-in. *)
Definition global (n : string) : M unit :=
  if existsb (String.eqb n) module_globals then ret tt
  else raise (NameError ("name '" ++ n ++ "' is not defined")).

(** The behaviour of the libraries the adapter calls.  None of them is part
    of the repository, so each is a parameter.  They raise exceptions of their
    own or of the runtime, never the bentoml ones. *)
Record Externals := mk_externals {
  (** [import transformers] succeeded *)
  transformers_installed : bool;
  (** the [transformers] module has an attribute of this name *)
  transformers_hasattr : string -> bool;
  (** [getattr(transformers, cls).from_pretrained(src)] *)
  from_pretrained : string -> string -> filesystem -> builtin_exc + value;
  (** [hub.load(handle)] *)
  hub_load : value -> filesystem -> builtin_exc + value;
  (** [obj.save_pretrained(path)] *)
  save_pretrained : instance -> string -> filesystem -> builtin_exc + filesystem;
  (** [tf.saved_model.save(obj, path)] *)
  saved_model_save : value -> string -> filesystem -> builtin_exc + filesystem;
  (** [json.dumps] and [json.loads] of an options document (a JSON object,
      or [null]) *)
  json_dumps : gmap string value -> builtin_exc + string;
  json_loads : string -> builtin_exc + option (gmap string value)
}.

(** ** The class [QandaTransformersModelArtifact] *)

Definition embedder_key : string := "embedder_model_path".

Definition msg_missing_dependency : string :=
  "the transformers package is required to use QandaTransformersModelArtifact".
Definition msg_no_model_type : string :=
  "Type of transformers model not found. This should be present in a file called '_model_type.txt' in the artifacts of the bundle.".
Definition msg_no_tokenizer_type : string :=
  "Type of transformers tokenizer not found. This should be present in a file called 'tokenizer_type.txt' in the artifacts of the bundle.".
Definition msg_no_embedder_path : string :=
  "Path to embedder model should be in opts. ".
Definition msg_key_not_found (k : string) : string :=
  "'" ++ k ++ "' key is not found in the dictionary. Expecting a dictionary with keys 'model', 'tokenizer' and 'embedder'".
Definition msg_not_model (v : value) : string :=
  "Expecting a transformers model object but got " ++ type_repr v.
Definition msg_not_tokenizer (v : value) : string :=
  "Expecting a transformers tokenizer object but got " ++ type_repr v.
Definition msg_not_in_library (model_name : string) : string :=
  "model with name " ++ model_name ++ " not present in the transformers library".
Definition msg_no_such_type (t : option string) : string :=
  "transformers has no model type called "
  ++ match t with Some s => s | None => "None" end.
Definition msg_bad_source : string :=
  "Expecting a Dictionary of format {'model': <transformers model object>, 'tokenizer': <tokenizer object>}".

Section Artifact.

Variable X : Externals.

(** [__init__(self, name)]: the new object, or the exception. *)
Definition __init__ (n : string) : exn + artifact :=
  let obj := {| name := n; _model := VNone; _tokenizer_type := None;
                _model_type := Some "AutoModelForQuestionAnswering" |} in
  if transformers_installed X then inr obj
  else inl (MissingDependencyException msg_missing_dependency).

Definition _file_path (base_path : string) : M string :=
  s <- get_self ;; ret (path_join base_path (name s)).

(** [import_module('transformers')] *)
Definition import_transformers : M unit :=
  if transformers_installed X then ret tt
  else raise (ImportError "No module named 'transformers'").

(** [getattr(module, attr)] on the transformers module; the attribute name
    is an attribute of [self] that may be [None]. *)
Definition transformers_getattr (attr : option string) : M string :=
  match attr with
  | None => raise (TypeError "attribute name must be string, not 'NoneType'")
  | Some c =>
      if transformers_hasattr X c then ret c
      else raise (AttributeError ("module 'transformers' has no attribute '" ++ c ++ "'"))
  end.

(** [transformers.AutoTokenizer], through the module-level name
    [transformers], which is [None] when the import failed. *)
Definition transformers_AutoTokenizer : M string :=
  if transformers_installed X then transformers_getattr (Some "AutoTokenizer")
  else raise (AttributeError "'NoneType' object has no attribute 'AutoTokenizer'").

Definition call_from_pretrained (cls src : string) : M value :=
  f <- get_fs ;; lift (from_pretrained X cls src f).

Definition call_hub_load (handle : value) : M value :=
  f <- get_fs ;; lift (hub_load X handle f).

(** [k in opts] *)
Definition contains (opts : gmap string value) (k : string) : bool :=
  match opts !! k with Some _ => true | None => false end.

(** [opts[k]] *)
Definition subscript (opts : gmap string value) (k : string) : M value :=
  match opts !! k with
  | Some v => ret v
  | None => raise (OtherError "KeyError" ("'" ++ k ++ "'"))
  end.

Definition bundle (m t e : value) : value :=
  VDict (<["model" := m]> (<["tokenizer" := t]> (<["embedder" := e]> ∅))).

Definition _load_from_directory (path : string) (opts : gmap string value) : M unit :=
  s <- get_self ;;
  match _model_type s with
  | None => raise (NotFound msg_no_model_type)
  | Some _ =>
  match _tokenizer_type s with
  | None => raise (NotFound msg_no_tokenizer_type)
  | Some _ =>
  if negb (contains opts embedder_key) then raise (NotFound msg_no_embedder_path)
  else
    import_transformers ;;
    s <- get_self ;;
    cls <- transformers_getattr (_model_type s) ;;
    transformers_model <- call_from_pretrained cls path ;;
    import_transformers ;;
    s <- get_self ;;
    cls <- transformers_getattr (_tokenizer_type s) ;;
    tokenizer <- call_from_pretrained cls path ;;
    h <- subscript opts embedder_key ;;
    embedder <- call_hub_load h ;;
    set_model (bundle transformers_model tokenizer embedder)
  end
  end.

Definition _load_from_dict (model : gmap string value) : M unit :=
  if negb (truthy (dict_get model "model"))
  then raise (InvalidArgument (msg_key_not_found "model"))
  else if negb (truthy (dict_get model "tokenizer"))
  then raise (InvalidArgument (msg_key_not_found "tokenizer"))
  else if negb (truthy (dict_get model "embedder"))
  then raise (InvalidArgument (msg_key_not_found "embedder"))
  else
    let model_class := type_module (dict_get model "model") in
    let tokenizer_class := type_module (dict_get model "tokenizer") in
    if negb (startswith model_class "transformers")
    then raise (InvalidArgument (msg_not_model (dict_get model "model")))
    else if negb (startswith tokenizer_class "transformers")
    then raise (InvalidArgument (msg_not_tokenizer (dict_get model "tokenizer")))
    else set_model (VDict model).

(** The [except] clauses of [_load_from_string]. *)
Definition _load_from_string_handler (model_name : string) (e : exn) : M unit :=
  match e with
  | Raised (EnvironmentError _ _) => raise (NotFound (msg_not_in_library model_name))
  | Raised (AttributeError _) =>
      s <- get_self ;; raise (NotFound (msg_no_such_type (_model_type s)))
  | _ => raise e
  end.

(** The body of the [try] statement of [_load_from_string]. *)
Definition _load_from_string_body (model_name : string) (opts : gmap string value) : M unit :=
  import_transformers ;;
  s <- get_self ;;
  cls <- transformers_getattr (_model_type s) ;;
  transformers_model <- call_from_pretrained cls model_name ;;
  tcls <- transformers_AutoTokenizer ;;
  tokenizer <- call_from_pretrained tcls model_name ;;
  h <- subscript opts embedder_key ;;
  embedder <- call_hub_load h ;;
  set_model (bundle transformers_model tokenizer embedder).

Definition _load_from_string (model_name : string) (opts : gmap string value) : M unit :=
  if negb (contains opts embedder_key) then raise (NotFound msg_no_embedder_path)
  else try_except (_load_from_string_body model_name opts)
                  (_load_from_string_handler model_name).

(** [path] is whatever [pack] was given as its source.  The name [json] is
    looked up when the body of the [with] statement runs, after the file
    was opened. *)
Definition _save_package_opts (path : value) (opts : gmap string value) : M unit :=
  p <- os_path_join path "package_opts.json" ;;
  f <- open_w p ;;
  global "json" ;;
  text <- lift (json_dumps X opts) ;;
  fwrite f text.

(** The [if] / [elif] / [else] statement of [pack]: the choice of the
    branch by the type of the source. *)
Definition pack_dispatch (model : value) (opts : gmap string value) : M unit :=
  match model with
  | VStr p =>
      f <- get_fs ;;
      if isdir p f then _load_from_directory p opts
      else _load_from_string p opts
  | VDict d => _load_from_dict d
  | _ => raise (InvalidArgument msg_bad_source)
  end.

(** [pack(self, model, opts=None)]; the result is [self]. *)
Definition pack (model : value) (opts : option (gmap string value)) : M artifact :=
  let opts := match opts with Some o => o | None => ∅ end in
  pack_dispatch model opts ;;
  _save_package_opts model opts ;;
  get_self.

Definition load (path : string) : M artifact :=
  path <- _file_path path ;;
  f <- open_r (path_join path "package_opts.json") ;;
  global "json" ;;
  text <- fread f ;;
  opts <- lift (json_loads X text) ;;
  f <- open_r (path_join path "_model_type.txt") ;;
  text <- fread f ;;
  set_model_type (strip text) ;;
  f <- open_r (path_join path "tokenizer_type.txt") ;;
  text <- fread f ;;
  set_tokenizer_type (strip text) ;;
  pack (VStr path) opts.

Definition _save_model_type (path : string) : M unit :=
  f <- open_w (path_join path "_model_type.txt") ;;
  s <- get_self ;;
  fwrite_attr f (_model_type s) ;;
  f <- open_w (path_join path "tokenizer_type.txt") ;;
  s <- get_self ;;
  fwrite_attr f (_tokenizer_type s).

(** [self._model.get(k)]: [self._model] is [None] or a dictionary. *)
Definition model_get (k : string) : M value :=
  s <- get_self ;;
  match _model s with
  | VDict d => ret (dict_get d k)
  | v => raise (AttributeError ("'" ++ class_name v ++ "' object has no attribute 'get'"))
  end.

(** [obj.save_pretrained(path)] *)
Definition call_save_pretrained (obj : value) (path : string) : M unit :=
  match obj with
  | VInst o =>
      f <- get_fs ;; f' <- lift (save_pretrained X o path f) ;; put_fs f'
  | _ => raise (AttributeError ("'" ++ class_name obj
                                  ++ "' object has no attribute 'save_pretrained'"))
  end.

(** [tf.saved_model.save(obj, path)] *)
Definition call_saved_model_save (obj : value) (path : string) : M unit :=
  f <- get_fs ;; f' <- lift (saved_model_save X obj path f) ;; put_fs f'.

Definition save (dst : string) : M string :=
  path <- _file_path dst ;;
  makedirs path ;;
  m <- model_get "model" ;;
  set_model_type (class_name m) ;;
  t <- model_get "tokenizer" ;;
  set_tokenizer_type (class_name t) ;;
  m <- model_get "model" ;;
  call_save_pretrained m path ;;
  t <- model_get "tokenizer" ;;
  call_save_pretrained t path ;;
  e <- model_get "embedder" ;;
  call_saved_model_save e path ;;
  _save_model_type path ;;
  ret path.

Definition get : M value :=
  s <- get_self ;; ret (_model s).

End Artifact.

(** * Notions used by the properties *)

(** [isinstance(v, str)] and [isinstance(v, dict)] *)
Definition is_str (v : value) : bool :=
  match v with VStr _ => true | _ => false end.
Definition is_dict (v : value) : bool :=
  match v with VDict _ => true | _ => false end.

(** The options [pack] works with: [{}] when none were given. *)
Definition opts_or_empty (opts : option (gmap string value)) : gmap string value :=
  match opts with Some o => o | None => ∅ end.

(** The keys of a bundle, in the order [_load_from_dict] checks them. *)
Definition bundle_keys : list string := [ "model"; "tokenizer"; "embedder" ].

(** The first key of a bundle that a dictionary lacks or maps to a value
    that is not truthy. *)
Definition first_missing (d : gmap string value) : option string :=
  find (fun k => negb (truthy (dict_get d k))) bundle_keys.

(** [open(p, 'w')] succeeds on this file system. *)
Definition can_open_w (p : string) (f : filesystem) : bool :=
  negb (String.eqb p EmptyString)
  && negb (isdir p f)
  && (String.eqb (dirname p) EmptyString || isdir (dirname p) f).

(** The file system after [open(p, 'w')] and [f.write(text)]. *)
Definition write_file (p text : string) (f : filesystem) : filesystem :=
  {| files := <[p := text]> (<[p := EmptyString]> (files f)); dirs := dirs f |}.

(** The test the code applies to the defining module of an object's
    class: the module name starts with [transformers]. *)
Definition from_transformers (v : value) : bool :=
  startswith (type_module v) "transformers".

(** The defining module of the object's class belongs to the transformers
    library: it is the package [transformers] itself or a module inside it,
    whose dotted name starts with [transformers.].  This is the notion the
    test of the code stands for; the test accepts more. *)
Definition in_transformers_library (v : value) : bool :=
  String.eqb (type_module v) "transformers"
  || startswith (type_module v) "transformers.".

(** The world after [self._model = v]. *)
Definition with_model (v : value) (w : world) : world :=
  {| self := {| name := name (self w); _model := v;
                _tokenizer_type := _tokenizer_type (self w);
                _model_type := _model_type (self w) |};
     fs := fs w |}.

(** The operations a client of the adapter can call. *)
Inductive call : Type :=
| CallPack (model : value) (opts : option (gmap string value))
| CallLoad (path : string)
| CallSave (dst : string)
| CallGet.

(** The world a call leaves behind, whether it returned or raised. *)
Definition run_call (X : Externals) (c : call) (w : world) : world :=
  match c with
  | CallPack model opts => snd (pack X model opts w)
  | CallLoad path => snd (load X path w)
  | CallSave dst => snd (save X dst w)
  | CallGet => snd (get w)
  end.

(** The worlds an adapter can be in: it was constructed, then any calls
    were made on it, and the file system may change between calls. *)
Inductive reachable (X : Externals) : world -> Prop :=
| reach_init n f a :
    __init__ X n = inr a -> reachable X {| self := a; fs := f |}
| reach_call w c :
    reachable X w -> reachable X (run_call X c w)
| reach_env w f :
    reachable X w -> reachable X {| self := self w; fs := f |}.

(** The model type of the adapter is a name, not [None]. *)
Definition has_model_type (w : world) : Prop :=
  exists t, _model_type (self w) = Some t.

(** The adapter holds this bundle. *)
Definition holds_bundle (v : value) (w : world) : Prop :=
  _model (self w) = v.

(** The file in which [pack] keeps the options of a string source. *)
Definition options_path (p : string) : string :=
  path_join p "package_opts.json".

(** The adapter has this name. *)
Definition holds_name (n : string) (w : world) : Prop :=
  name (self w) = n.

(** The adapter records these type names. *)
Definition holds_types (mt tt : option string) (w : world) : Prop :=
  _model_type (self w) = mt /\ _tokenizer_type (self w) = tt.

(** The file system is this one. *)
Definition holds_fs (f : filesystem) (w : world) : Prop :=
  fs w = f.

(** The world after both type names were assigned. *)
Definition with_type_names (mt tt : string) (w : world) : world :=
  {| self := {| name := name (self w); _model := _model (self w);
                _tokenizer_type := Some tt; _model_type := Some mt |};
     fs := fs w |}.

(** The world with another file system. *)
Definition with_fs (f : filesystem) (w : world) : world :=
  {| self := self w; fs := f |}.

(** A bundle is [None] or a dictionary that has the three keys. *)
Definition bundle_shaped (v : value) : Prop :=
  v = VNone \/
  exists d, v = VDict d /\ forall k, In k bundle_keys -> is_Some (d !! k).

Definition well_bundled (w : world) : Prop :=
  bundle_shaped (_model (self w)).

(** A computation keeps a property of the world, however it ends. *)
Definition preserves {A} (P : world -> Prop) (m : M A) : Prop :=
  forall w r w', m w = (r, w') -> P w -> P w'.

(** ** A concrete setting

    A small instance of the collaborators, used to run the definitions:
    a transformers library that knows a few classes and a hub loader that
    accepts any string handle. *)
Module Demo.

Definition bert_model : instance :=
  {| inst_id := 1; cls_module := "transformers.models.bert.modeling_bert";
     cls_name := "BertForQuestionAnswering"; inst_truthy := true |}.

Definition bert_tokenizer : instance :=
  {| inst_id := 2; cls_module := "transformers.models.bert.tokenization_bert";
     cls_name := "BertTokenizer"; inst_truthy := true |}.

Definition use_embedder : instance :=
  {| inst_id := 3; cls_module := "tensorflow.python.saved_model.load";
     cls_name := "_UserObject"; inst_truthy := true |}.

Definition known_classes : list string :=
  [ "AutoModelForQuestionAnswering"; "AutoTokenizer";
    "BertForQuestionAnswering"; "BertTokenizer" ].

Definition add_file (p text : string) (f : filesystem) : filesystem :=
  {| files := <[p := text]> (files f); dirs := dirs f |}.

Definition externals : Externals :=
  {| transformers_installed := true;
     transformers_hasattr := fun c => existsb (String.eqb c) known_classes;
     from_pretrained := fun cls src f =>
       if String.eqb src "no-such-model"
       then inl (EnvironmentError "OSError" "Can't load config for 'no-such-model'")
       else if String.eqb src "broken-model"
       then inl (OtherError "ValueError" "Unrecognized configuration class")
       else if String.eqb cls "AutoTokenizer" || String.eqb cls "BertTokenizer"
       then inr (VInst bert_tokenizer)
       else inr (VInst bert_model);
     hub_load := fun h f =>
       match h with
       | VStr _ => inr (VInst use_embedder)
       | _ => inl (TypeError "Expected a string handle")
       end;
     save_pretrained := fun o path f =>
       inr (add_file (path_join path (cls_name o ++ ".bin")) "weights" f);
     saved_model_save := fun v path f =>
       inr (add_file (path_join path "saved_model.pb") "graph" f);
     json_dumps := fun _ => inr "{}";
     json_loads := fun _ => inr (Some ∅) |}.

(** a file system with the directories [/tmp] and [/tmp/x] *)
Definition tmp_fs : filesystem :=
  {| files := ∅; dirs := {[ "/tmp"; "/tmp/x" ]} |}.

(** a fresh adapter named [qa] *)
Definition fresh : artifact :=
  {| name := "qa"; _model := VNone; _tokenizer_type := None;
     _model_type := Some "AutoModelForQuestionAnswering" |}.

Definition the_bundle : gmap string value :=
  <["model" := VInst bert_model]>
    (<["tokenizer" := VInst bert_tokenizer]>
       (<["embedder" := VInst use_embedder]> ∅)).

Definition other_bundle : gmap string value :=
  <["model" := VInst bert_model]>
    (<["tokenizer" := VInst bert_tokenizer]>
       (<["embedder" := VInt 7]> ∅)).

Definition w0 : world := {| self := fresh; fs := tmp_fs |}.

(** an adapter that already holds [other_bundle] *)
Definition packed : world :=
  {| self := {| name := "qa"; _model := VDict other_bundle;
                _tokenizer_type := None;
                _model_type := Some "AutoModelForQuestionAnswering" |};
     fs := tmp_fs |}.

Definition embedder_opts : gmap string value :=
  <[embedder_key := VStr "/models/use"]> ∅.

(** a dictionary without a tokenizer *)
Definition no_tokenizer : gmap string value :=
  <["model" := VInst bert_model]> (<["embedder" := VInst use_embedder]> ∅).


(** an adapter whose type names are known, as [load] would leave it before
    it calls [pack] *)
Definition typed : world :=
  {| self := {| name := "qa"; _model := VNone;
                _tokenizer_type := Some "BertTokenizer";
                _model_type := Some "BertForQuestionAnswering" |};
     fs := tmp_fs |}.

(** the same collaborators, except that no object can be saved *)
Definition full_disk : Externals :=
  {| transformers_installed := true;
     transformers_hasattr := transformers_hasattr externals;
     from_pretrained := from_pretrained externals;
     hub_load := hub_load externals;
     save_pretrained := fun o path f =>
       inl (EnvironmentError "OSError" "No space left on device");
     saved_model_save := fun v path f =>
       inl (EnvironmentError "OSError" "No space left on device");
     json_dumps := json_dumps externals;
     json_loads := json_loads externals |}.


(** a transformers library that has only the Bert classes *)
Definition old_library : Externals :=
  {| transformers_installed := true;
     transformers_hasattr := fun c =>
       String.eqb c "BertForQuestionAnswering" || String.eqb c "BertTokenizer";
     from_pretrained := from_pretrained externals;
     hub_load := hub_load externals;
     save_pretrained := save_pretrained externals;
     saved_model_save := saved_model_save externals;
     json_dumps := json_dumps externals;
     json_loads := json_loads externals |}.

(** an adapter whose type names are known, in a file system where
    [no-such-model] is a directory *)
Definition typed_missing : world :=
  {| self := self typed;
     fs := {| files := ∅; dirs := {[ "no-such-model" ]} |} |}.



(** the calls of a client that packs a dictionary and saves *)
Definition session : world :=
  run_call externals (CallSave "/tmp/x")
    (run_call externals (CallPack (VDict the_bundle) None) w0).

End Demo.

(** * Properties *)

Create HintDb keeps.

(** Unfold the monad and split on every test that is left. *)
Ltac run_monad :=
  unfold bind, ret, raise, lift, get_self, put_self, get_fs, put_fs in *; simpl in *.
Ltac split_cases :=
  repeat first [ progress run_monad | progress simplify_eq /= | case_match ];
  try done.

Section Properties.

Variable X : Externals.

(** *** Library calls leave the world as it is *)

Lemma transformers_getattr_world attr w r w' :
  transformers_getattr X attr w = (r, w') -> w' = w.
Proof.
  unfold transformers_getattr. intros H. run_monad. split_cases.
Qed.

Lemma call_from_pretrained_world cls src w r w' :
  call_from_pretrained X cls src w = (r, w') -> w' = w.
Proof.
  unfold call_from_pretrained. intros H. run_monad. split_cases.
Qed.

Lemma call_hub_load_world h w r w' :
  call_hub_load X h w = (r, w') -> w' = w.
Proof.
  unfold call_hub_load. intros H. run_monad. split_cases.
Qed.

(** *** The branches of [pack] assign the bundle last *)

Lemma load_from_dict_error d w e w' :
  _load_from_dict d w = (inl e, w') -> w' = w.
Proof.
  unfold _load_from_dict, set_model. intros H. run_monad. split_cases.
Qed.

Lemma load_from_directory_error p opts w e w' :
  _load_from_directory X p opts w = (inl e, w') -> w' = w.
Proof.
  unfold _load_from_directory, set_model, import_transformers, transformers_getattr,
    call_from_pretrained, call_hub_load, subscript.
  intros H. run_monad. split_cases.
Qed.

Lemma load_from_string_body_error n opts w e w' :
  _load_from_string_body X n opts w = (inl e, w') -> w' = w.
Proof.
  unfold _load_from_string_body, set_model, import_transformers,
    transformers_AutoTokenizer, transformers_getattr,
    call_from_pretrained, call_hub_load, subscript.
  intros H. run_monad. split_cases.
Qed.

Lemma load_from_string_handler_raises n e w :
  exists e', _load_from_string_handler n e w = (inl e', w).
Proof.
  unfold _load_from_string_handler.
  destruct e as [m|m|m|[m|m|m|m|c m|c m]]; run_monad; eauto.
Qed.

Lemma load_from_string_error n opts w e w' :
  _load_from_string X n opts w = (inl e, w') -> w' = w.
Proof.
  unfold _load_from_string, try_except. intros H.
  destruct (contains opts embedder_key); simpl in H.
  - destruct (_load_from_string_body X n opts w) as [[e0|[]] w0] eqn:Hb.
    + apply load_from_string_body_error in Hb. subst w0.
      destruct (load_from_string_handler_raises n e0 w) as [e' He'].
      rewrite He' in H. by simplify_eq.
    + discriminate.
  - run_monad. by simplify_eq.
Qed.

Lemma pack_dispatch_error model opts w e w' :
  pack_dispatch X model opts w = (inl e, w') -> w' = w.
Proof.
  unfold pack_dispatch. intros H.
  destruct model as [| | |p| |d|]; try (run_monad; by simplify_eq).
  - run_monad. destruct (isdir p (fs w)).
    + by eapply load_from_directory_error.
    + by eapply load_from_string_error.
  - by eapply load_from_dict_error.
Qed.

(** When the choice of the branch or the branch itself raises, [pack]
    raises the same exception and nothing has changed. *)
Lemma pack_raises_of_dispatch model opts w e w' :
  pack_dispatch X model (opts_or_empty opts) w = (inl e, w') ->
  pack X model opts w = (inl e, w).
Proof.
  intros H. pose proof (pack_dispatch_error _ _ _ _ _ H) as ->.
  unfold pack, bind. fold (opts_or_empty opts). by rewrite H.
Qed.

(** *** Sources that are neither a string nor a dictionary *)

(** C3: for a source that is neither a string nor a dictionary, [pack]
    raises [InvalidArgument] and leaves the adapter (its bundle included)
    and the file system exactly as they were. *)
Theorem pack_unsupported_source model opts w :
  is_str model = false ->
  is_dict model = false ->
  pack X model opts w = (inl (InvalidArgument msg_bad_source), w).
Proof.
  intros Hs Hd. apply pack_raises_of_dispatch with (w' := w).
  destruct model; simpl in *; try discriminate; reflexivity.
Qed.

(** *** Dictionary sources *)

(** C5: when one of the keys [model], [tokenizer], [embedder] is absent from
    a dictionary source or holds a value that is not truthy, [pack] raises
    [InvalidArgument] with the message that names a key [k'] which is
    absent or not truthy, the first such key in the order model, tokenizer,
    embedder; when [k] is the only such key, the message names [k].
    Nothing is changed. *)
Theorem pack_dict_missing_key d opts w k :
  In k bundle_keys ->
  truthy (dict_get d k) = false ->
  exists k',
    first_missing d = Some k' /\
    In k' bundle_keys /\
    truthy (dict_get d k') = false /\
    pack X (VDict d) opts w = (inl (InvalidArgument (msg_key_not_found k')), w) /\
    ((forall j, In j bundle_keys -> j <> k -> truthy (dict_get d j) = true) -> k' = k).
Proof.
  intros Hk Hf. unfold first_missing. simpl.
  destruct (truthy (dict_get d "model")) eqn:Hm;
    [destruct (truthy (dict_get d "tokenizer")) eqn:Ht;
      [destruct (truthy (dict_get d "embedder")) eqn:He|]|]; simpl.
  - simpl in Hk. destruct Hk as [<-|[<-|[<-|[]]]]; congruence.
  - exists "embedder". repeat split; [simpl; tauto | done | | ].
    + apply pack_raises_of_dispatch with (w' := w). simpl.
      unfold _load_from_dict. by rewrite Hm, Ht, He.
    + intros Hall. simpl in Hk. destruct Hk as [<-|[<-|[<-|[]]]]; congruence.
  - exists "tokenizer". repeat split; [simpl; tauto | done | | ].
    + apply pack_raises_of_dispatch with (w' := w). simpl.
      unfold _load_from_dict. by rewrite Hm, Ht.
    + intros Hall. simpl in Hk. destruct Hk as [<-|[<-|[<-|[]]]]; try congruence.
      specialize (Hall "tokenizer"). simpl in Hall.
      rewrite Hall in Ht; [done | tauto | done].
  - exists "model". repeat split; [simpl; tauto | done | | ].
    + apply pack_raises_of_dispatch with (w' := w). simpl.
      unfold _load_from_dict. by rewrite Hm.
    + intros Hall. simpl in Hk. destruct Hk as [<-|[<-|[<-|[]]]]; try done.
      * specialize (Hall "model"). simpl in Hall.
        rewrite Hall in Hm; [done | tauto | done].
      * specialize (Hall "model"). simpl in Hall.
        rewrite Hall in Hm; [done | tauto | done].
Qed.

(** A dictionary that passes every check is stored as it is. *)
Lemma load_from_dict_ok d w :
  truthy (dict_get d "model") = true ->
  truthy (dict_get d "tokenizer") = true ->
  truthy (dict_get d "embedder") = true ->
  from_transformers (dict_get d "model") = true ->
  from_transformers (dict_get d "tokenizer") = true ->
  _load_from_dict d w = (inr tt, with_model (VDict d) w).
Proof.
  unfold from_transformers, _load_from_dict. intros -> -> -> -> ->. reflexivity.
Qed.


(** An object of the transformers library passes the test of the code:
    the objects the test turns away are all outside the library. *)
Lemma library_module_passes_prefix_test v :
  in_transformers_library v = true -> from_transformers v = true.
Proof.
  unfold in_transformers_library, from_transformers, startswith.
  intros H. apply orb_true_iff in H as [H|H].
  - apply String.eqb_eq in H. rewrite H. reflexivity.
  - generalize dependent (type_module v). intros m H.
    do 12 (destruct m as [|? m]; simpl in *; [discriminate|];
           case_match; [|discriminate]).
    by destruct m.
Qed.

(** *** Directory sources *)

(** C7: for a string source that is an existing directory, when the options
    do not hold [embedder_model_path], [pack] raises [NotFound] and nothing
    is changed. *)
Theorem pack_directory_without_embedder_path p opts w :
  isdir p (fs w) = true ->
  contains (opts_or_empty opts) embedder_key = false ->
  exists msg, pack X (VStr p) opts w = (inl (NotFound msg), w).
Proof.
  intros Hdir Hopts.
  assert (exists msg, pack_dispatch X (VStr p) (opts_or_empty opts) w
                      = (inl (NotFound msg), w)) as [msg Hmsg].
  { unfold pack_dispatch, _load_from_directory. run_monad. rewrite Hdir, Hopts.
    destruct (_model_type (self w)); [destruct (_tokenizer_type (self w))|]; eauto. }
  exists msg. by eapply pack_raises_of_dispatch.
Qed.

(** *** Registry names *)

(** How the [try] body fails when a loader does. *)
Lemma load_from_string_unknown_class n opts w c :
  transformers_installed X = true ->
  _model_type (self w) = Some c ->
  transformers_hasattr X c = false ->
  exists m, _load_from_string_body X n opts w = (inl (Raised (AttributeError m)), w).
Proof.
  intros Hi Hc Ha. unfold _load_from_string_body, import_transformers, transformers_getattr.
  run_monad. rewrite Hi. simpl. rewrite Hc, Ha. eauto.
Qed.

Lemma load_from_string_model_loader_fails n opts w c b :
  transformers_installed X = true ->
  _model_type (self w) = Some c ->
  transformers_hasattr X c = true ->
  from_pretrained X c n (fs w) = inl b ->
  _load_from_string_body X n opts w = (inl (Raised b), w).
Proof.
  intros Hi Hc Ha Hb.
  unfold _load_from_string_body, import_transformers, transformers_getattr,
    call_from_pretrained.
  run_monad. rewrite Hi. simpl. rewrite Hc, Ha. simpl. by rewrite Hb.
Qed.

(** C8: on the registry-name path, with the embedder path present in the
    options, a failure of the [try] body (the class lookup and the three
    loaders) is turned into [NotFound] saying that the model is not present
    in the library when it is an [EnvironmentError], into [NotFound] saying
    that there is no such model type when it is an [AttributeError], and is
    raised again as it is otherwise; the world is as before in each case. *)
Theorem load_from_string_translates n opts w e w' :
  contains opts embedder_key = true ->
  _load_from_string_body X n opts w = (inl e, w') ->
  (forall c m, e = Raised (EnvironmentError c m) ->
     _load_from_string X n opts w = (inl (NotFound (msg_not_in_library n)), w)) /\
  (forall m, e = Raised (AttributeError m) ->
     _load_from_string X n opts w
     = (inl (NotFound (msg_no_such_type (_model_type (self w)))), w)) /\
  ((forall c m, e <> Raised (EnvironmentError c m)) ->
   (forall m, e <> Raised (AttributeError m)) ->
     _load_from_string X n opts w = (inl e, w)).
Proof.
  intros Hopts Hbody.
  pose proof (load_from_string_body_error _ _ _ _ _ Hbody) as ->.
  unfold _load_from_string, try_except. rewrite Hopts. simpl. rewrite Hbody.
  repeat split.
  - by intros c m ->.
  - by intros m ->.
  - intros Henv Hattr. destruct e as [m|m|m|[m|m|m|m|c m|c m]]; try reflexivity.
    + by destruct (Hattr m).
    + by destruct (Henv c m).
Qed.

(** *** Persisting the options *)

(** The name [json] is not bound in the module. *)
Lemma global_json_unbound w :
  global "json" w = (inl (Raised (NameError "name 'json' is not defined")), w).
Proof. reflexivity. Qed.

(** [_save_package_opts] raises on every source: a source that is not a
    string is not a path, and for a string the name [json] is missing. *)
Lemma save_package_opts_raises path opts w :
  exists e w', _save_package_opts X path opts w = (inl e, w').
Proof.
  unfold _save_package_opts, os_path_join, open_w.
  destruct path; run_monad; eauto.
  repeat (case_match; run_monad; eauto).
Qed.

Lemma pack_never_returns model opts w :
  exists e w', pack X model opts w = (inl e, w').
Proof.
  unfold pack. fold (opts_or_empty opts). unfold bind.
  destruct (pack_dispatch X model (opts_or_empty opts) w) as [[e|[]] w1]; [eauto|].
  destruct (save_package_opts_raises model (opts_or_empty opts) w1) as (e & w2 & ->).
  eauto.
Qed.

Lemma save_package_opts_dict d opts w :
  _save_package_opts X (VDict d) opts w
  = (inl (Raised (TypeError "expected str, bytes or os.PathLike object, not dict")), w).
Proof. reflexivity. Qed.

(** C1: a dictionary whose three values are truthy and whose model and
    tokenizer come from the transformers package is stored as the bundle,
    but [pack] then raises [TypeError] while persisting the options, because
    the dictionary itself is passed as the directory to write them to: it
    does not return the adapter and writes nothing. *)
Theorem pack_valid_dict_raises d opts w :
  truthy (dict_get d "model") = true ->
  truthy (dict_get d "tokenizer") = true ->
  truthy (dict_get d "embedder") = true ->
  from_transformers (dict_get d "model") = true ->
  from_transformers (dict_get d "tokenizer") = true ->
  pack X (VDict d) opts w
  = (inl (Raised (TypeError "expected str, bytes or os.PathLike object, not dict")),
     with_model (VDict d) w)
  /\ fst (get (with_model (VDict d) w)) = inr (VDict d).
Proof.
  intros Hm Ht He Hcm Hct. split; [|reflexivity].
  unfold pack, bind, pack_dispatch.
  rewrite (load_from_dict_ok d w Hm Ht He Hcm Hct).
  by rewrite save_package_opts_dict.
Qed.

(** Whenever a call of [pack] ends with another bundle than it started
    with, the chosen branch had returned. *)
Lemma pack_new_bundle_after_branch model opts w r w' :
  pack X model opts w = (r, w') ->
  _model (self w') <> _model (self w) ->
  exists w1, pack_dispatch X model (opts_or_empty opts) w = (inr tt, w1).
Proof.
  intros Hp Hne.
  destruct (pack_dispatch X model (opts_or_empty opts) w) as [[e|[]] w1] eqn:Hd; [|eauto].
  rewrite (pack_raises_of_dispatch _ _ _ _ _ Hd) in Hp. by simplify_eq.
Qed.


(** *** Loading *)

(** [load] never returns: the options file is missing or is a directory,
    or else the name [json] is looked up. *)
Lemma load_never_returns path w :
  exists e, load X path w = (inl e, w) /\
    (e = Raised (NameError "name 'json' is not defined")
     \/ exists c m, e = Raised (EnvironmentError c m)).
Proof.
  unfold load, _file_path, open_r, FileNotFoundError, IsADirectoryError,
    NotADirectoryError.
  run_monad. destruct w as [a f]. simpl.
  repeat (case_match; run_monad; simplify_eq);
    (eexists; split; [reflexivity | eauto]).
Qed.


(** *** Saving *)

Lemma append_inj_l (a b c : string) : a ++ b = a ++ c -> b = c.
Proof. induction a as [|x a IH]; simpl; intros H; [done|]. injection H. auto. Qed.

(** Two relative names joined to the same directory stay apart. *)
Lemma path_join_inj (a b c : string) :
  startswith b "/" = false -> startswith c "/" = false ->
  path_join a b = path_join a c -> b = c.
Proof.
  unfold path_join. intros -> ->.
  destruct (String.eqb a EmptyString || ends_with_sep a); intros H.
  - by apply append_inj_l in H.
  - apply append_inj_l in H. by apply (append_inj_l "/") in H.
Qed.

Lemma sidecar_paths_differ (path : string) :
  path_join path "_model_type.txt" <> path_join path "tokenizer_type.txt".
Proof. intros H. apply path_join_inj in H; done. Qed.

Lemma bind_returns {A B} (m : M A) (k : A -> M B) w b w' :
  bind m k w = (inr b, w') ->
  exists a w1, m w = (inr a, w1) /\ k a w1 = (inr b, w').
Proof.
  unfold bind. destruct (m w) as [[e|a] w1]; [discriminate|]. eauto.
Qed.

Lemma open_w_returns p w h w' :
  open_w p w = (inr h, w') ->
  h = p /\ self w' = self w /\ files (fs w') = <[p := EmptyString]> (files (fs w)).
Proof.
  unfold open_w. intros H. run_monad.
  repeat (case_match; run_monad; simplify_eq); done.
Qed.

Lemma fwrite_attr_returns h x w w' :
  fwrite_attr h x w = (inr tt, w') ->
  self w' = self w /\
  exists s, x = Some s /\
    files (fs w')
    = <[h := match files (fs w) !! h with Some t => t | None => EmptyString end ++ s]>
        (files (fs w)).
Proof.
  unfold fwrite_attr, fwrite. intros H. destruct x; run_monad; simplify_eq. eauto.
Qed.

Lemma get_self_returns w a w' :
  get_self w = (inr a, w') -> a = self w /\ w' = w.
Proof. unfold get_self. intros H. by simplify_eq. Qed.

(** What [_save_model_type] leaves in the two sidecar files. *)
Lemma save_model_type_files path w w' :
  _save_model_type path w = (inr tt, w') ->
  self w' = self w /\
  (files (fs w') !! path_join path "_model_type.txt") = _model_type (self w) /\
  (files (fs w') !! path_join path "tokenizer_type.txt") = _tokenizer_type (self w).
Proof.
  unfold _save_model_type. intros H.
  pose proof (sidecar_paths_differ path) as Hne.
  apply bind_returns in H as (f1 & w1 & Ho1 & H).
  apply open_w_returns in Ho1 as (-> & Hs1 & Hf1).
  apply bind_returns in H as (a1 & w2 & Hg1 & H).
  apply get_self_returns in Hg1 as [-> ->].
  apply bind_returns in H as ([] & w3 & Hw1 & H).
  apply fwrite_attr_returns in Hw1 as (Hs3 & s1 & Hx1 & Hf3).
  apply bind_returns in H as (f2 & w4 & Ho2 & H).
  apply open_w_returns in Ho2 as (-> & Hs4 & Hf4).
  apply bind_returns in H as (a2 & w5 & Hg2 & H).
  apply get_self_returns in Hg2 as [-> ->].
  apply fwrite_attr_returns in H as (Hs5 & s2 & Hx2 & Hf5).
  rewrite Hs4, Hs3, Hs1 in *. split; [by rewrite Hs5|].
  rewrite Hx1, Hx2, Hf5, Hf4, Hf3, Hf1.
  rewrite !lookup_insert_eq. simpl.
  split; [|done].
  rewrite !lookup_insert_ne by done. by rewrite lookup_insert_eq.
Qed.

Lemma model_get_returns k w v w' :
  model_get k w = (inr v, w') ->
  w' = w /\ exists d, _model (self w) = VDict d /\ v = dict_get d k.
Proof.
  unfold model_get. intros H. run_monad.
  destruct (_model (self w)); run_monad; simplify_eq. eauto.
Qed.

Lemma call_save_pretrained_self obj path w r w' :
  call_save_pretrained X obj path w = (r, w') -> self w' = self w.
Proof.
  unfold call_save_pretrained. intros H. destruct obj; run_monad; split_cases.
Qed.

Lemma call_saved_model_save_self obj path w r w' :
  call_saved_model_save X obj path w = (r, w') -> self w' = self w.
Proof.
  unfold call_saved_model_save. intros H. run_monad; split_cases.
Qed.

Lemma makedirs_self p w r w' :
  makedirs p w = (r, w') -> self w' = self w.
Proof.
  unfold makedirs. intros H. run_monad; split_cases.
Qed.

Lemma file_path_returns base w p w' :
  _file_path base w = (inr p, w') -> p = path_join base (name (self w)) /\ w' = w.
Proof. unfold _file_path. intros H. run_monad. by simplify_eq. Qed.

Lemma set_model_type_returns t w r w' :
  set_model_type t w = (r, w') ->
  _model_type (self w') = Some t /\
  _tokenizer_type (self w') = _tokenizer_type (self w) /\
  _model (self w') = _model (self w) /\
  name (self w') = name (self w) /\
  fs w' = fs w.
Proof. unfold set_model_type. intros H. run_monad. by simplify_eq. Qed.

Lemma set_tokenizer_type_returns t w r w' :
  set_tokenizer_type t w = (r, w') ->
  _model_type (self w') = _model_type (self w) /\
  _tokenizer_type (self w') = Some t /\
  _model (self w') = _model (self w) /\
  name (self w') = name (self w) /\
  fs w' = fs w.
Proof. unfold set_tokenizer_type. intros H. run_monad. by simplify_eq. Qed.

(** C9: when [save] returns on an adapter that holds a bundle, it returns
    the artifact path [dst/<name>]; the adapter's model type and tokenizer
    type are then the class names of the bundle's model and tokenizer
    objects, whatever they were before; the file [_model_type.txt] under the
    artifact path holds exactly the model's class name and
    [tokenizer_type.txt] the tokenizer's; and the bundle is the same. *)
Theorem save_writes_class_names dst w d p w' :
  _model (self w) = VDict d ->
  save X dst w = (inr p, w') ->
  p = path_join dst (name (self w)) /\
  _model_type (self w') = Some (class_name (dict_get d "model")) /\
  _tokenizer_type (self w') = Some (class_name (dict_get d "tokenizer")) /\
  files (fs w') !! path_join p "_model_type.txt"
    = Some (class_name (dict_get d "model")) /\
  files (fs w') !! path_join p "tokenizer_type.txt"
    = Some (class_name (dict_get d "tokenizer")) /\
  _model (self w') = VDict d.
Proof.
  intros Hd H. unfold save in H.
  apply bind_returns in H as (path & w1 & Hpath & H).
  apply file_path_returns in Hpath as [-> ->].
  apply bind_returns in H as ([] & w2 & Hmk & H).
  apply makedirs_self in Hmk as Hs2.
  apply bind_returns in H as (m & w3 & Hm & H).
  apply model_get_returns in Hm as (-> & d1 & Hd1 & ->).
  rewrite Hs2, Hd in Hd1. injection Hd1 as <-.
  apply bind_returns in H as ([] & w4 & Hset & H).
  apply set_model_type_returns in Hset as (Hmt4 & Htt4 & Hm4 & Hn4 & Hfs4).
  apply bind_returns in H as (t & w5 & Ht & H).
  apply model_get_returns in Ht as (-> & d2 & Hd2 & ->).
  rewrite Hm4, Hs2, Hd in Hd2. injection Hd2 as <-.
  apply bind_returns in H as ([] & w6 & Hset & H).
  apply set_tokenizer_type_returns in Hset as (Hmt6 & Htt6 & Hm6 & Hn6 & Hfs6).
  apply bind_returns in H as (m & w7 & Hm & H).
  apply model_get_returns in Hm as (-> & _ & _ & _).
  apply bind_returns in H as ([] & w8 & Hsm & H).
  apply call_save_pretrained_self in Hsm as Hs8.
  apply bind_returns in H as (t & w9 & Ht & H).
  apply model_get_returns in Ht as (-> & _ & _ & _).
  apply bind_returns in H as ([] & w10 & Hst & H).
  apply call_save_pretrained_self in Hst as Hs10.
  apply bind_returns in H as (e & w11 & He & H).
  apply model_get_returns in He as (-> & _ & _ & _).
  apply bind_returns in H as ([] & w12 & Hse & H).
  apply call_saved_model_save_self in Hse as Hs12.
  apply bind_returns in H as ([] & w13 & Hty & H).
  apply save_model_type_files in Hty as (Hs13 & Hf1 & Hf2).
  unfold ret in H. injection H as <- <-.
  rewrite Hs13, Hf1, Hf2, Hs12, Hs10, Hs8, Hmt6, Htt6, Hm6, Hmt4, Hm4, Hs2, Hd.
  done.
Qed.

(** When creating the directory and the three savers succeed and the two
    sidecar paths can be written, [save] returns the artifact path. *)
Lemma open_w_ok p w :
  can_open_w p (fs w) = true ->
  open_w p w
  = (inr p, {| self := self w;
               fs := {| files := <[p := EmptyString]> (files (fs w));
                        dirs := dirs (fs w) |} |}).
Proof.
  unfold can_open_w, open_w. intros H.
  apply andb_prop in H as [H H3]. apply andb_prop in H as [H1 H2].
  run_monad.
  destruct (String.eqb p EmptyString); [done|].
  destruct (isdir p (fs w)); [done|].
  destruct (String.eqb (dirname p) EmptyString); [done|].
  simpl in *. by rewrite H3.
Qed.

Lemma save_model_type_ok path a f mt tt :
  _model_type a = Some mt ->
  _tokenizer_type a = Some tt ->
  can_open_w (path_join path "_model_type.txt") f = true ->
  can_open_w (path_join path "tokenizer_type.txt") f = true ->
  _save_model_type path {| self := a; fs := f |}
  = (inr (),
     {| self := a;
        fs := write_file (path_join path "tokenizer_type.txt") tt
                (write_file (path_join path "_model_type.txt") mt f) |}).
Proof.
  intros Hmt Htt H1 H2. unfold _save_model_type, bind at 1.
  rewrite open_w_ok by done. simpl.
  unfold bind at 1, get_self at 1. simpl. rewrite Hmt.
  unfold bind at 1, fwrite_attr, fwrite, bind at 1, get_fs, put_fs. simpl.
  rewrite lookup_insert_eq. simpl.
  unfold bind at 1. rewrite open_w_ok by done. simpl.
  unfold bind at 1, get_self at 1. simpl. rewrite Htt.
  unfold bind at 1. simpl. rewrite lookup_insert_eq. reflexivity.
Qed.

Lemma bind_step {A B} (m : M A) (k : A -> M B) w a w1 :
  m w = (inr a, w1) -> bind m k w = k a w1.
Proof. unfold bind. by intros ->. Qed.

Lemma model_get_ok k w d :
  _model (self w) = VDict d -> model_get k w = (inr (dict_get d k), w).
Proof. unfold model_get. intros H. run_monad. by rewrite H. Qed.

Lemma call_save_pretrained_ok o path w f :
  save_pretrained X o path (fs w) = inr f ->
  call_save_pretrained X (VInst o) path w = (inr (), {| self := self w; fs := f |}).
Proof. unfold call_save_pretrained. intros H. run_monad. by rewrite H. Qed.

Lemma call_saved_model_save_ok v path w f :
  saved_model_save X v path (fs w) = inr f ->
  call_saved_model_save X v path w = (inr (), {| self := self w; fs := f |}).
Proof. unfold call_saved_model_save. intros H. run_monad. by rewrite H. Qed.

Lemma save_returns dst w d m t f2 f3 f4 :
  let path := path_join dst (name (self w)) in
  _model (self w) = VDict d ->
  dict_get d "model" = VInst m ->
  dict_get d "tokenizer" = VInst t ->
  fst (makedirs path w) = inr () ->
  save_pretrained X m path (fs (snd (makedirs path w))) = inr f2 ->
  save_pretrained X t path f2 = inr f3 ->
  saved_model_save X (dict_get d "embedder") path f3 = inr f4 ->
  can_open_w (path_join path "_model_type.txt") f4 = true ->
  can_open_w (path_join path "tokenizer_type.txt") f4 = true ->
  exists w', save X dst w = (inr path, w').
Proof.
  intros path Hd Hm Ht Hmk Hs1 Hs2 Hs3 Ho1 Ho2.
  destruct (makedirs path w) as [r w1] eqn:Emk. simpl in Hmk, Hs1. subst r.
  pose proof (makedirs_self _ _ _ _ Emk) as Hself.
  assert (_model (self w1) = VDict d) as Hd1 by (by rewrite Hself).
  unfold save.
  erewrite bind_step; [|reflexivity]. fold path.
  erewrite bind_step; [|exact Emk].
  erewrite bind_step; [|by apply model_get_ok].
  erewrite bind_step; [|reflexivity].
  erewrite bind_step; [|by apply model_get_ok].
  erewrite bind_step; [|reflexivity].
  erewrite bind_step; [|by apply model_get_ok].
  rewrite Hm. erewrite bind_step; [|by apply call_save_pretrained_ok].
  erewrite bind_step; [|by apply model_get_ok].
  rewrite Ht. erewrite bind_step; [|by apply call_save_pretrained_ok].
  erewrite bind_step; [|by apply model_get_ok].
  erewrite bind_step; [|by apply call_saved_model_save_ok].
  erewrite bind_step; [|by apply save_model_type_ok].
  unfold ret. eauto.
Qed.

(** *** The model type is never [None] *)

Lemma preserves_ret {A} P (a : A) : preserves P (ret a).
Proof. intros w r w' H. unfold ret in H. by simplify_eq. Qed.

Lemma preserves_raise {A} P e : preserves P (@raise A e).
Proof. intros w r w' H. unfold raise in H. by simplify_eq. Qed.

Lemma preserves_lift {A} P (x : builtin_exc + A) : preserves P (lift x).
Proof. destruct x; [apply preserves_raise | apply preserves_ret]. Qed.

Lemma preserves_bind {A B} P (m : M A) (k : A -> M B) :
  preserves P m -> (forall a, preserves P (k a)) -> preserves P (bind m k).
Proof.
  intros Hm Hk w r w' H HP. unfold bind in H.
  destruct (m w) as [[e|a] w1] eqn:Hmw.
  - simplify_eq. by eapply Hm.
  - eapply Hk; [done|]. by eapply Hm.
Qed.

Lemma preserves_try {A} P (m : M A) (h : exn -> M A) :
  preserves P m -> (forall e, preserves P (h e)) -> preserves P (try_except m h).
Proof.
  intros Hm Hh w r w' H HP. unfold try_except in H.
  destruct (m w) as [[e|a] w1] eqn:Hmw.
  - eapply Hh; [done|]. by eapply Hm.
  - simplify_eq. by eapply Hm.
Qed.

Lemma preserves_get_self P : preserves P get_self.
Proof. intros w r w' H. unfold get_self in H. by simplify_eq. Qed.

Lemma preserves_get_fs P : preserves P get_fs.
Proof. intros w r w' H. unfold get_fs in H. by simplify_eq. Qed.

Lemma put_fs_model_type f : preserves has_model_type (put_fs f).
Proof. intros w r w' H. unfold put_fs in H. by simplify_eq. Qed.

Lemma set_model_model_type v : preserves has_model_type (set_model v).
Proof.
  intros w r w' H. unfold set_model in H. run_monad. by simplify_eq.
Qed.

Lemma set_tokenizer_type_model_type t : preserves has_model_type (set_tokenizer_type t).
Proof.
  intros w r w' H. unfold set_tokenizer_type in H. run_monad. by simplify_eq.
Qed.

Lemma set_model_type_model_type t : preserves has_model_type (set_model_type t).
Proof.
  intros w r w' H _. unfold set_model_type in H. run_monad. simplify_eq.
  by exists t.
Qed.

Lemma put_fs_bundle v f : preserves (holds_bundle v) (put_fs f).
Proof. intros w r w' H. unfold put_fs in H. by simplify_eq. Qed.

Lemma set_tokenizer_type_bundle v t : preserves (holds_bundle v) (set_tokenizer_type t).
Proof.
  intros w r w' H. unfold set_tokenizer_type in H. run_monad. by simplify_eq.
Qed.

Lemma set_model_type_bundle v t : preserves (holds_bundle v) (set_model_type t).
Proof.
  intros w r w' H. unfold set_model_type in H. run_monad. by simplify_eq.
Qed.

#[local] Hint Resolve preserves_ret preserves_raise preserves_lift
  preserves_get_self preserves_get_fs
  put_fs_model_type set_model_model_type set_tokenizer_type_model_type
  set_model_type_model_type
  put_fs_bundle set_tokenizer_type_bundle set_model_type_bundle : keeps.

(** Split a computation into its steps; each step keeps the property. *)
Ltac keep_steps :=
  repeat first
    [ solve [auto with keeps]
    | apply preserves_bind; [|intros ?]
    | apply preserves_try; [|intros ?]
    | case_match ].

Lemma pack_keeps_model_type model opts :
  preserves has_model_type (pack X model opts).
Proof.
  unfold pack, pack_dispatch, _load_from_directory, _load_from_string,
    _load_from_string_body, _load_from_string_handler, _load_from_dict,
    _save_package_opts, os_path_join, open_w, fwrite, global,
    import_transformers, transformers_AutoTokenizer, transformers_getattr,
    call_from_pretrained, call_hub_load, subscript.
  keep_steps.
Qed.

Lemma save_keeps_model_type dst :
  preserves has_model_type (save X dst).
Proof.
  unfold save, _file_path, makedirs, model_get, call_save_pretrained,
    call_saved_model_save, _save_model_type, open_w, fwrite_attr, fwrite.
  keep_steps.
Qed.

Lemma load_keeps_model_type path :
  preserves has_model_type (load X path).
Proof.
  intros w r w' H. destruct (load_never_returns path w) as (e & He & _).
  rewrite He in H. by simplify_eq.
Qed.

Lemma get_keeps_model_type : preserves has_model_type get.
Proof. unfold get. keep_steps. Qed.

Lemma reachable_has_model_type w : reachable X w -> has_model_type w.
Proof.
  induction 1 as [n f a Hinit|w c Hw IH|w f Hw IH].
  - unfold __init__ in Hinit. destruct (transformers_installed X); simplify_eq.
    by eexists.
  - destruct c as [model opts|path|dst|]; simpl.
    + destruct (pack X model opts w) as [r w'] eqn:E. by eapply pack_keeps_model_type.
    + destruct (load X path w) as [r w'] eqn:E. by eapply load_keeps_model_type.
    + destruct (save X dst w) as [r w'] eqn:E. by eapply save_keeps_model_type.
    + destruct (get w) as [r w'] eqn:E. by eapply get_keeps_model_type.
  - exact IH.
Qed.

(** C10: in every reachable world the model type is set, so the first
    test of [_load_from_directory] never fires: a [NotFound] that
    [_load_from_directory] raises carries the message of the tokenizer-type
    test, raised when the tokenizer type is [None], or the message of the
    embedder-path test, raised when the options lack the path. *)
Theorem load_from_directory_model_type_branch_dead w :
  reachable X w ->
  (exists t, _model_type (self w) = Some t) /\
  (forall p opts msg w',
     _load_from_directory X p opts w = (inl (NotFound msg), w') ->
     (msg = msg_no_tokenizer_type /\ _tokenizer_type (self w) = None)
     \/ (msg = msg_no_embedder_path /\ contains opts embedder_key = false)).
Proof.
  intros Hw. apply reachable_has_model_type in Hw as [t Ht].
  split; [by exists t|].
  intros p opts msg w'.
  unfold _load_from_directory, set_model, import_transformers, transformers_getattr,
    call_from_pretrained, call_hub_load, subscript.
  intros H. run_monad. rewrite Ht in H.
  destruct (_tokenizer_type (self w)) as [tt|] eqn:Htt; [|simplify_eq; by left].
  destruct (contains opts embedder_key) eqn:Hc; simpl in H.
  - split_cases.
  - simplify_eq. by right.
Qed.

(** *** Saving, then loading *)

Lemma save_keeps_bundle v dst :
  preserves (holds_bundle v) (save X dst).
Proof.
  unfold save, _file_path, makedirs, model_get, call_save_pretrained,
    call_saved_model_save, _save_model_type, open_w, fwrite_attr, fwrite.
  keep_steps.
Qed.

(** C2: after a [save] that returned, [load] on the same path raises: the
    [FileNotFoundError] or [IsADirectoryError] of opening
    [package_opts.json], which [save] does not write, or the [NameError] of
    the name [json].  Nothing is read back: the adapter is as [save] left
    it, and [get] still gives the bundle that was saved. *)
Theorem save_then_load_raises dst w d p w1 :
  _model (self w) = VDict d ->
  save X dst w = (inr p, w1) ->
  exists e,
    load X dst w1 = (inl e, w1) /\
    (e = Raised (NameError "name 'json' is not defined")
     \/ exists c m, e = Raised (EnvironmentError c m)) /\
    get (snd (load X dst w1)) = (inr (VDict d), w1).
Proof.
  intros Hd Hsave.
  destruct (load_never_returns dst w1) as (e & Hload & He).
  exists e. rewrite Hload. repeat split; [done|].
  pose proof (save_keeps_bundle (VDict d) dst w _ w1 Hsave Hd) as Hb.
  unfold holds_bundle in Hb. simpl. unfold get, bind, get_self, ret. by rewrite Hb.
Qed.

(** * Further properties *)

(** *** [pack] and [load] never return *)

Lemma save_package_opts_str p opts w :
  exists e w', _save_package_opts X (VStr p) opts w = (inl (Raised e), w') /\
    self w' = self w /\
    (e = NameError "name 'json' is not defined" \/ exists c m, e = EnvironmentError c m).
Proof.
  unfold _save_package_opts, os_path_join, open_w, global,
    FileNotFoundError, IsADirectoryError, NotADirectoryError.
  run_monad.
  repeat (case_match; run_monad; simplify_eq);
    (eexists _, _; split; [reflexivity|]; split; [done|]; eauto).
Qed.

(** X1: every call of [pack] ends with an exception.  Either the choice of
    the branch or the branch raised it, or the branch returned and the
    options could not be persisted: for a dictionary source that is the
    [TypeError] of joining a path to a dictionary, for a string source the
    [NameError] of the name [json] or an [OSError] of opening the file.  In
    the second case the adapter is as the branch left it. *)
Theorem pack_always_raises model opts w :
  exists e w',
    pack X model opts w = (inl e, w') /\
    (pack_dispatch X model (opts_or_empty opts) w = (inl e, w')
     \/ exists w1,
         pack_dispatch X model (opts_or_empty opts) w = (inr tt, w1) /\
         self w' = self w1 /\
         ((is_dict model = true /\
           e = Raised (TypeError "expected str, bytes or os.PathLike object, not dict"))
          \/ (is_str model = true /\
              (e = Raised (NameError "name 'json' is not defined")
               \/ exists c m, e = Raised (EnvironmentError c m))))).
Proof.
  destruct (pack_dispatch X model (opts_or_empty opts) w) as [[e|[]] w1] eqn:Hd.
  - pose proof (pack_dispatch_error _ _ _ _ _ Hd) as ->.
    exists e, w. split; [by eapply pack_raises_of_dispatch | by left].
  - unfold pack. fold (opts_or_empty opts). unfold bind at 1. rewrite Hd.
    destruct model as [| | |p| |d|]; try (simpl in Hd; run_monad; discriminate).
    + destruct (save_package_opts_str p (opts_or_empty opts) w1)
        as (e & w2 & He & Hs & Hk).
      exists (Raised e), w2. unfold bind. rewrite He. split; [done|].
      right. exists w1. split; [done|]. split; [done|]. right. split; [done|].
      destruct Hk as [->|(c & m & ->)]; eauto.
    + exists (Raised (TypeError "expected str, bytes or os.PathLike object, not dict")), w1.
      unfold bind. rewrite save_package_opts_dict. split; [done|].
      right. exists w1. split; [done|]. split; [done|]. by left.
Qed.


(** *** Errors of the string branches *)

(** X3: for a string source that is not a directory, when the options do not
    hold [embedder_model_path], [pack] raises [NotFound] asking for the
    embedder path and changes nothing, whatever the loaders would do. *)
Theorem pack_registry_name_without_embedder_path p opts w :
  isdir p (fs w) = false ->
  contains (opts_or_empty opts) embedder_key = false ->
  pack X (VStr p) opts w = (inl (NotFound msg_no_embedder_path), w).
Proof.
  intros Hdir Hopts. apply pack_raises_of_dispatch with (w' := w).
  unfold pack_dispatch, _load_from_string. run_monad. by rewrite Hdir, Hopts.
Qed.

(** X4: on an adapter that was just constructed, [pack] on an existing
    directory raises [NotFound] for the tokenizer type, with or without the
    embedder path in the options: the constructor sets a model type but no
    tokenizer type. *)
Theorem pack_directory_on_new_adapter n a f p opts :
  __init__ X n = inr a ->
  isdir p f = true ->
  pack X (VStr p) opts {| self := a; fs := f |}
  = (inl (NotFound msg_no_tokenizer_type), {| self := a; fs := f |}).
Proof.
  intros Hinit Hdir. unfold __init__ in Hinit.
  destruct (transformers_installed X); simplify_eq.
  eapply pack_raises_of_dispatch.
  unfold pack_dispatch, _load_from_directory. run_monad. rewrite Hdir. reflexivity.
Qed.

(** *** What [pack] does to the file system *)

Lemma set_model_fs f v : preserves (holds_fs f) (set_model v).
Proof.
  intros w r w' H. unfold set_model in H. run_monad. by simplify_eq.
Qed.

#[local] Hint Resolve set_model_fs : keeps.

Lemma pack_dispatch_keeps_fs f model opts :
  preserves (holds_fs f) (pack_dispatch X model opts).
Proof.
  unfold pack_dispatch, _load_from_directory, _load_from_string,
    _load_from_string_body, _load_from_string_handler, _load_from_dict,
    import_transformers, transformers_AutoTokenizer, transformers_getattr,
    call_from_pretrained, call_hub_load, subscript.
  keep_steps.
Qed.

Lemma pack_dispatch_fs model opts w r w' :
  pack_dispatch X model opts w = (r, w') -> fs w' = fs w.
Proof.
  intros H. by apply (pack_dispatch_keeps_fs (fs w) model opts w r w' H).
Qed.

Lemma save_package_opts_opened p opts w :
  can_open_w (options_path p) (fs w) = true ->
  _save_package_opts X (VStr p) opts w
  = (inl (Raised (NameError "name 'json' is not defined")),
     with_fs {| files := <[options_path p := EmptyString]> (files (fs w));
                dirs := dirs (fs w) |} w).
Proof.
  intros Hopen. unfold _save_package_opts, os_path_join.
  erewrite bind_step; [|reflexivity]. fold (options_path p).
  erewrite bind_step; [|by apply open_w_ok].
  unfold bind. by rewrite global_json_unbound.
Qed.

(** X5: when the branch of a string source returns and the file
    [package_opts.json] under the source can be opened for writing, [pack]
    raises [NameError] for the name [json] after it has opened the file: the
    file is left empty, whatever it held, and the adapter holds the new
    bundle. *)
Theorem pack_string_truncates_options_file p opts w w1 :
  pack_dispatch X (VStr p) (opts_or_empty opts) w = (inr tt, w1) ->
  can_open_w (options_path p) (fs w) = true ->
  pack X (VStr p) opts w
  = (inl (Raised (NameError "name 'json' is not defined")),
     with_fs {| files := <[options_path p := EmptyString]> (files (fs w));
                dirs := dirs (fs w) |} w1)
  /\ files (fs (snd (pack X (VStr p) opts w))) !! options_path p = Some EmptyString.
Proof.
  intros Hd Hopen.
  pose proof (pack_dispatch_fs _ _ _ _ _ Hd) as Hfs.
  assert (pack X (VStr p) opts w
          = (inl (Raised (NameError "name 'json' is not defined")),
             with_fs {| files := <[options_path p := EmptyString]> (files (fs w));
                        dirs := dirs (fs w) |} w1)) as Hp.
  { unfold pack. fold (opts_or_empty opts).
    erewrite bind_step; [|exact Hd].
    rewrite <- Hfs in Hopen.
    unfold bind. rewrite (save_package_opts_opened _ _ _ Hopen).
    unfold with_fs. by rewrite Hfs. }
  split; [exact Hp|]. rewrite Hp. simpl. apply lookup_insert_eq.
Qed.


(** *** Attributes that a call leaves alone *)

Lemma put_fs_name n f : preserves (holds_name n) (put_fs f).
Proof. intros w r w' H. unfold put_fs in H. by simplify_eq. Qed.

Lemma set_model_name n v : preserves (holds_name n) (set_model v).
Proof.
  intros w r w' H. unfold set_model in H. run_monad. by simplify_eq.
Qed.

Lemma set_model_type_name n t : preserves (holds_name n) (set_model_type t).
Proof.
  intros w r w' H. unfold set_model_type in H. run_monad. by simplify_eq.
Qed.

Lemma set_tokenizer_type_name n t : preserves (holds_name n) (set_tokenizer_type t).
Proof.
  intros w r w' H. unfold set_tokenizer_type in H. run_monad. by simplify_eq.
Qed.

Lemma put_fs_types mt tt f : preserves (holds_types mt tt) (put_fs f).
Proof. intros w r w' H. unfold put_fs in H. by simplify_eq. Qed.

Lemma set_model_types mt tt v : preserves (holds_types mt tt) (set_model v).
Proof.
  intros w r w' H. unfold set_model in H. run_monad. by simplify_eq.
Qed.

#[local] Hint Resolve put_fs_name set_model_name set_model_type_name
  set_tokenizer_type_name put_fs_types set_model_types : keeps.

Lemma pack_keeps_name n model opts : preserves (holds_name n) (pack X model opts).
Proof.
  unfold pack, pack_dispatch, _load_from_directory, _load_from_string,
    _load_from_string_body, _load_from_string_handler, _load_from_dict,
    _save_package_opts, os_path_join, open_w, fwrite, global,
    import_transformers, transformers_AutoTokenizer, transformers_getattr,
    call_from_pretrained, call_hub_load, subscript.
  keep_steps.
Qed.

Lemma pack_keeps_types mt tt model opts :
  preserves (holds_types mt tt) (pack X model opts).
Proof.
  unfold pack, pack_dispatch, _load_from_directory, _load_from_string,
    _load_from_string_body, _load_from_string_handler, _load_from_dict,
    _save_package_opts, os_path_join, open_w, fwrite, global,
    import_transformers, transformers_AutoTokenizer, transformers_getattr,
    call_from_pretrained, call_hub_load, subscript.
  keep_steps.
Qed.

Lemma save_keeps_name n dst : preserves (holds_name n) (save X dst).
Proof.
  unfold save, _file_path, makedirs, model_get, call_save_pretrained,
    call_saved_model_save, _save_model_type, open_w, fwrite_attr, fwrite.
  keep_steps.
Qed.

(** X7: no call changes the name of the adapter; [pack], [load] and [get]
    leave both type names as they are (only [save] assigns them); [load],
    [save] and [get] leave the bundle as it is (only [pack] assigns it).
    This holds for calls that raise as for calls that return. *)
Theorem calls_keep_attributes c w :
  name (self (run_call X c w)) = name (self w) /\
  ((forall dst, c <> CallSave dst) ->
     _model_type (self (run_call X c w)) = _model_type (self w) /\
     _tokenizer_type (self (run_call X c w)) = _tokenizer_type (self w)) /\
  ((forall model opts, c <> CallPack model opts) ->
     _model (self (run_call X c w)) = _model (self w)).
Proof.
  destruct c as [model opts|path|dst|]; simpl.
  - destruct (pack X model opts w) as [r w'] eqn:E. simpl. split; [|split].
    + by apply (pack_keeps_name (name (self w)) model opts w r w' E).
    + intros _.
      by apply (pack_keeps_types (_model_type (self w)) (_tokenizer_type (self w))
                  model opts w r w' E).
    + intros Hne. by destruct (Hne model opts).
  - destruct (load_never_returns path w) as (e & -> & _). done.
  - destruct (save X dst w) as [r w'] eqn:E. simpl. split; [|split].
    + by apply (save_keeps_name (name (self w)) dst w r w' E).
    + intros Hne. by destruct (Hne dst).
    + intros _. by apply (save_keeps_bundle (_model (self w)) dst w r w' E).
  - done.
Qed.

(** *** The string branches when the loaders succeed *)

Lemma load_from_directory_ok p opts w mt tt h m t e :
  _model_type (self w) = Some mt ->
  _tokenizer_type (self w) = Some tt ->
  opts !! embedder_key = Some h ->
  transformers_installed X = true ->
  transformers_hasattr X mt = true ->
  transformers_hasattr X tt = true ->
  from_pretrained X mt p (fs w) = inr m ->
  from_pretrained X tt p (fs w) = inr t ->
  hub_load X h (fs w) = inr e ->
  _load_from_directory X p opts w = (inr (), with_model (bundle m t e) w).
Proof.
  intros Hmt Htt Hh Hi Hamt Hatt Hm Ht He.
  unfold _load_from_directory, import_transformers, transformers_getattr,
    call_from_pretrained, call_hub_load, subscript, contains, set_model.
  run_monad. rewrite Hmt, Htt, Hh, Hi. simpl.
  rewrite Hmt, Hamt. simpl. rewrite Hm. simpl.
  rewrite Htt, Hatt. simpl. rewrite Ht. simpl. rewrite He. simpl.
  reflexivity.
Qed.


(** X9: on a string that is not a directory, when the options hold the
    embedder path, the transformers module has the class named by the model
    type and [AutoTokenizer], and the three loaders return, the branch of
    [pack] stores the three loaded objects.  The tokenizer is loaded through
    [AutoTokenizer] whatever tokenizer type the adapter records, and that
    record is not changed. *)
Theorem pack_registry_name_branch_loads p opts w mt h m t e :
  isdir p (fs w) = false ->
  _model_type (self w) = Some mt ->
  opts !! embedder_key = Some h ->
  transformers_installed X = true ->
  transformers_hasattr X mt = true ->
  transformers_hasattr X "AutoTokenizer" = true ->
  from_pretrained X mt p (fs w) = inr m ->
  from_pretrained X "AutoTokenizer" p (fs w) = inr t ->
  hub_load X h (fs w) = inr e ->
  pack_dispatch X (VStr p) opts w = (inr (), with_model (bundle m t e) w).
Proof.
  intros Hdir Hmt Hh Hi Hamt Hat Hm Ht He.
  unfold pack_dispatch. unfold bind, get_fs. rewrite Hdir.
  unfold _load_from_string, try_except, _load_from_string_body, import_transformers,
    transformers_AutoTokenizer, transformers_getattr,
    call_from_pretrained, call_hub_load, subscript, contains, set_model.
  run_monad. rewrite Hh, Hi. simpl.
  rewrite Hmt, Hamt. simpl. rewrite Hm. simpl.
  rewrite Hat. simpl. rewrite Ht. simpl. rewrite ?Hh. simpl. rewrite He. simpl.
  reflexivity.
Qed.

(** *** [save] outside its intended use *)

(** X10: [save] on an adapter that holds no bundle never returns and leaves
    the adapter as it was; when the artifact directory can be created, it
    has been created by the time [save] raises [AttributeError] for the
    missing bundle. *)
Theorem save_unpacked_raises dst w :
  _model (self w) = VNone ->
  (exists e w', save X dst w = (inl e, w') /\ self w' = self w) /\
  (fst (makedirs (path_join dst (name (self w))) w) = inr () ->
   save X dst w
   = (inl (Raised (AttributeError "'NoneType' object has no attribute 'get'")),
      snd (makedirs (path_join dst (name (self w))) w))).
Proof.
  intros Hnone.
  destruct (makedirs (path_join dst (name (self w))) w) as [[e|[]] w1] eqn:Emk.
  - pose proof (makedirs_self _ _ _ _ Emk) as Hself.
    assert (save X dst w = (inl e, w1)) as Hsave.
    { unfold save. erewrite bind_step; [|reflexivity].
      unfold bind at 1. by rewrite Emk. }
    split; [eauto|discriminate].
  - pose proof (makedirs_self _ _ _ _ Emk) as Hself.
    assert (save X dst w
            = (inl (Raised (AttributeError "'NoneType' object has no attribute 'get'")),
               w1)) as Hsave.
    { unfold save. erewrite bind_step; [|reflexivity].
      erewrite bind_step; [|exact Emk].
      unfold bind at 1, model_get. run_monad. by rewrite Hself, Hnone. }
    split; [eauto|done].
Qed.

(** X11: [save] assigns both type names before it calls the savers and does
    not take them back: when the model's [save_pretrained] raises, [save]
    raises that exception and the adapter's model type and tokenizer type
    are already the class names of the bundle's model and tokenizer, while
    no sidecar file was written. *)
Theorem save_failure_keeps_new_types dst w d m b :
  _model (self w) = VDict d ->
  dict_get d "model" = VInst m ->
  fst (makedirs (path_join dst (name (self w))) w) = inr () ->
  save_pretrained X m (path_join dst (name (self w)))
    (fs (snd (makedirs (path_join dst (name (self w))) w))) = inl b ->
  save X dst w
  = (inl (Raised b),
     with_type_names (cls_name m) (class_name (dict_get d "tokenizer"))
       (snd (makedirs (path_join dst (name (self w))) w))).
Proof.
  intros Hd Hm Hmk Hs.
  destruct (makedirs (path_join dst (name (self w))) w) as [r w1] eqn:Emk.
  simpl in Hmk, Hs. subst r.
  pose proof (makedirs_self _ _ _ _ Emk) as Hself.
  assert (_model (self w1) = VDict d) as Hd1 by (by rewrite Hself).
  unfold save.
  erewrite bind_step; [|reflexivity].
  erewrite bind_step; [|exact Emk].
  erewrite bind_step; [|by apply model_get_ok].
  erewrite bind_step; [|reflexivity].
  erewrite bind_step; [|by apply model_get_ok].
  erewrite bind_step; [|reflexivity].
  erewrite bind_step; [|by apply model_get_ok].
  rewrite Hm. unfold bind at 1, call_save_pretrained.
  unfold bind at 1, get_fs at 1. unfold bind at 1. simpl. rewrite Hs. simpl.
  unfold with_type_names. simpl. by rewrite Hd1.
Qed.

(** X12: when the artifact directory can be created, the bundle's model and
    tokenizer are objects whose [save_pretrained] returns, the embedder
    saver returns, and the two sidecar paths can be opened in the file
    system the savers leave, [save] returns the artifact path; the adapter
    then records the two class names and the file system is the one the
    savers left with the two sidecar files set to those names. *)
Theorem save_succeeds dst w d m t f2 f3 f4 :
  let path := path_join dst (name (self w)) in
  _model (self w) = VDict d ->
  dict_get d "model" = VInst m ->
  dict_get d "tokenizer" = VInst t ->
  fst (makedirs path w) = inr () ->
  save_pretrained X m path (fs (snd (makedirs path w))) = inr f2 ->
  save_pretrained X t path f2 = inr f3 ->
  saved_model_save X (dict_get d "embedder") path f3 = inr f4 ->
  can_open_w (path_join path "_model_type.txt") f4 = true ->
  can_open_w (path_join path "tokenizer_type.txt") f4 = true ->
  save X dst w
  = (inr path,
     with_fs (write_file (path_join path "tokenizer_type.txt") (cls_name t)
                (write_file (path_join path "_model_type.txt") (cls_name m) f4))
       (with_type_names (cls_name m) (cls_name t) w)).
Proof.
  intros path Hd Hm Ht Hmk Hs1 Hs2 Hs3 Ho1 Ho2.
  destruct (makedirs path w) as [r w1] eqn:Emk. simpl in Hmk, Hs1. subst r.
  pose proof (makedirs_self _ _ _ _ Emk) as Hself.
  assert (_model (self w1) = VDict d) as Hd1 by (by rewrite Hself).
  unfold save.
  erewrite bind_step; [|reflexivity]. fold path.
  erewrite bind_step; [|exact Emk].
  erewrite bind_step; [|by apply model_get_ok].
  erewrite bind_step; [|reflexivity].
  erewrite bind_step; [|by apply model_get_ok].
  erewrite bind_step; [|reflexivity].
  erewrite bind_step; [|by apply model_get_ok].
  rewrite Hm. erewrite bind_step; [|by apply call_save_pretrained_ok].
  erewrite bind_step; [|by apply model_get_ok].
  rewrite Ht. erewrite bind_step; [|by apply call_save_pretrained_ok].
  erewrite bind_step; [|by apply model_get_ok].
  erewrite bind_step; [|by apply call_saved_model_save_ok].
  erewrite bind_step; [|by apply save_model_type_ok].
  unfold ret, with_fs, with_type_names. simpl. by rewrite Hself.
Qed.

(** *** [save], then [pack] on the directory it returned *)

Lemma save_returns_attributes dst w d p w' :
  _model (self w) = VDict d ->
  save X dst w = (inr p, w') ->
  p = path_join dst (name (self w)) /\
  _model_type (self w') = Some (class_name (dict_get d "model")) /\
  _tokenizer_type (self w') = Some (class_name (dict_get d "tokenizer")).
Proof.
  intros Hd H. unfold save in H.
  apply bind_returns in H as (path & w1 & Hpath & H).
  apply file_path_returns in Hpath as [-> ->].
  apply bind_returns in H as ([] & w2 & Hmk & H).
  apply makedirs_self in Hmk as Hs2.
  apply bind_returns in H as (m & w3 & Hm & H).
  apply model_get_returns in Hm as (-> & d1 & Hd1 & ->).
  rewrite Hs2, Hd in Hd1. injection Hd1 as <-.
  apply bind_returns in H as ([] & w4 & Hset & H).
  apply set_model_type_returns in Hset as (Hmt4 & Htt4 & Hm4 & Hn4 & Hfs4).
  apply bind_returns in H as (t & w5 & Ht & H).
  apply model_get_returns in Ht as (-> & d2 & Hd2 & ->).
  rewrite Hm4, Hs2, Hd in Hd2. injection Hd2 as <-.
  apply bind_returns in H as ([] & w6 & Hset & H).
  apply set_tokenizer_type_returns in Hset as (Hmt6 & Htt6 & Hm6 & Hn6 & Hfs6).
  apply bind_returns in H as (m & w7 & Hm & H).
  apply model_get_returns in Hm as (-> & _ & _ & _).
  apply bind_returns in H as ([] & w8 & Hsm & H).
  apply call_save_pretrained_self in Hsm as Hs8.
  apply bind_returns in H as (t & w9 & Ht & H).
  apply model_get_returns in Ht as (-> & _ & _ & _).
  apply bind_returns in H as ([] & w10 & Hst & H).
  apply call_save_pretrained_self in Hst as Hs10.
  apply bind_returns in H as (e & w11 & He & H).
  apply model_get_returns in He as (-> & _ & _ & _).
  apply bind_returns in H as ([] & w12 & Hse & H).
  apply call_saved_model_save_self in Hse as Hs12.
  apply bind_returns in H as ([] & w13 & Hty & H).
  apply save_model_type_files in Hty as (Hs13 & _ & _).
  unfold ret in H. injection H as <- <-.
  by rewrite Hs13, Hs12, Hs10, Hs8, Hmt6, Htt6, Hmt4.
Qed.

(** X13: the type names that [save] records are the ones a later [pack] on
    the artifact directory loads with.  After a [save] that returned the
    path [p], when [p] is a directory, the options hold the embedder path,
    the transformers module has the classes of the saved model and
    tokenizer and the loaders return, the directory branch of [pack] on [p]
    stores the bundle of the objects loaded with exactly those two
    classes. *)
Theorem save_then_pack_directory dst w d p w1 opts h m t e :
  _model (self w) = VDict d ->
  save X dst w = (inr p, w1) ->
  isdir p (fs w1) = true ->
  opts !! embedder_key = Some h ->
  transformers_installed X = true ->
  transformers_hasattr X (class_name (dict_get d "model")) = true ->
  transformers_hasattr X (class_name (dict_get d "tokenizer")) = true ->
  from_pretrained X (class_name (dict_get d "model")) p (fs w1) = inr m ->
  from_pretrained X (class_name (dict_get d "tokenizer")) p (fs w1) = inr t ->
  hub_load X h (fs w1) = inr e ->
  pack_dispatch X (VStr p) opts w1 = (inr (), with_model (bundle m t e) w1).
Proof.
  intros Hd Hsave Hdir Hh Hi Ham Hat Hm Ht He.
  destruct (save_returns_attributes _ _ _ _ _ Hd Hsave) as (_ & Hmt & Htt).
  unfold pack_dispatch. unfold bind, get_fs. rewrite Hdir.
  by eapply load_from_directory_ok.
Qed.

(** *** The shape of the bundle *)

Lemma truthy_dict_get_is_Some (d : gmap string value) k :
  truthy (dict_get d k) = true -> is_Some (d !! k).
Proof. unfold dict_get. destruct (d !! k); [eauto|discriminate]. Qed.

Lemma bundle_has_keys m t e : bundle_shaped (bundle m t e).
Proof.
  right. eexists. split; [reflexivity|].
  intros k Hk. simpl in Hk. destruct Hk as [<-|[<-|[<-|[]]]].
  - rewrite lookup_insert_eq. eauto.
  - rewrite lookup_insert_ne by done. rewrite lookup_insert_eq. eauto.
  - rewrite !lookup_insert_ne by done. rewrite lookup_insert_eq. eauto.
Qed.

Lemma set_model_bundle_shape m t e :
  preserves well_bundled (set_model (bundle m t e)).
Proof.
  intros w r w' H _. unfold set_model in H. run_monad. simplify_eq.
  apply bundle_has_keys.
Qed.

Lemma put_fs_shape f : preserves well_bundled (put_fs f).
Proof. intros w r w' H. unfold put_fs in H. by simplify_eq. Qed.

Lemma load_from_dict_shape d : preserves well_bundled (_load_from_dict d).
Proof.
  intros w r w' H Hw. destruct r as [e|[]].
  { by apply load_from_dict_error in H as ->. }
  unfold _load_from_dict in H.
  destruct (truthy (dict_get d "model")) eqn:Hm; [|by run_monad].
  destruct (truthy (dict_get d "tokenizer")) eqn:Ht; [|by run_monad].
  destruct (truthy (dict_get d "embedder")) eqn:He; [|by run_monad].
  simpl in H.
  destruct (startswith (type_module (dict_get d "model")) "transformers");
    [|by run_monad].
  destruct (startswith (type_module (dict_get d "tokenizer")) "transformers");
    [|by run_monad].
  simpl in H. unfold set_model in H. run_monad. simplify_eq.
  right. exists d. split; [reflexivity|].
  intros k Hk. simpl in Hk.
  destruct Hk as [<-|[<-|[<-|[]]]]; by apply truthy_dict_get_is_Some.
Qed.

#[local] Hint Resolve set_model_bundle_shape put_fs_shape load_from_dict_shape : keeps.

Lemma pack_keeps_shape model opts : preserves well_bundled (pack X model opts).
Proof.
  unfold pack, pack_dispatch, _load_from_directory, _load_from_string,
    _load_from_string_body, _load_from_string_handler,
    _save_package_opts, os_path_join, open_w, fwrite, global,
    import_transformers, transformers_AutoTokenizer, transformers_getattr,
    call_from_pretrained, call_hub_load, subscript.
  keep_steps.
Qed.

(** X14: in every world reachable from the constructor by calls of [pack],
    [load], [save] and [get], what [get] returns is [None] or a dictionary
    in which the keys [model], [tokenizer] and [embedder] are all present. *)
Theorem reachable_bundle_shape w :
  reachable X w ->
  forall v, fst (get w) = inr v ->
    v = VNone \/
    exists d, v = VDict d /\ forall k, In k bundle_keys -> is_Some (d !! k).
Proof.
  intros Hw v Hv.
  assert (well_bundled w) as Hshape.
  { clear v Hv. induction Hw as [n f a Hinit|w c Hw IH|w f Hw IH].
    - unfold __init__ in Hinit. destruct (transformers_installed X); simplify_eq.
      by left.
    - destruct c as [model opts|path|dst|]; simpl.
      + destruct (pack X model opts w) as [r w'] eqn:E.
        by apply (pack_keeps_shape model opts w r w' E).
      + destruct (load_never_returns path w) as (e & -> & _). done.
      + destruct (save X dst w) as [r w'] eqn:E. simpl.
        unfold well_bundled.
        by rewrite (save_keeps_bundle (_model (self w)) dst w r w' E).
      + done.
    - exact IH. }
  unfold get, bind, get_self, ret in Hv. simpl in Hv. simplify_eq. exact Hshape.
Qed.

(** *** Dictionary sources and the collaborators *)

(** X15: [pack] on a dictionary source does not depend on the libraries or
    on the options: with any other behaviour of the loaders and savers and
    any other options it ends with the same exception and the same world. *)
Theorem pack_dict_ignores_collaborators (X' : Externals) d opts opts' w :
  pack X (VDict d) opts w = pack X' (VDict d) opts' w.
Proof.
  unfold pack, pack_dispatch, bind.
  destruct (_load_from_dict d w) as [[e|[]] w1]; [reflexivity|].
  by rewrite !save_package_opts_dict.
Qed.

(** *** Failures of the collaborators, seen through [pack] *)


(** X17: on an adapter that was just constructed, when the transformers
    module has no attribute [AutoModelForQuestionAnswering], [pack] on a
    registry name with the embedder path in the options raises [NotFound]
    naming that model type, before any loader is called. *)
Theorem pack_registry_name_default_type_missing n a f p opts :
  __init__ X n = inr a ->
  isdir p f = false ->
  contains opts embedder_key = true ->
  transformers_hasattr X "AutoModelForQuestionAnswering" = false ->
  pack X (VStr p) (Some opts) {| self := a; fs := f |}
  = (inl (NotFound (msg_no_such_type (Some "AutoModelForQuestionAnswering"))),
     {| self := a; fs := f |}).
Proof.
  intros Hinit Hdir Hc Hattr. unfold __init__ in Hinit.
  destruct (transformers_installed X) eqn:Hi; simplify_eq.
  eapply pack_raises_of_dispatch. simpl.
  unfold pack_dispatch. unfold bind, get_fs. simpl. rewrite Hdir.
  unfold _load_from_string, try_except. rewrite Hc. simpl.
  unfold _load_from_string_body, import_transformers, transformers_getattr.
  run_monad. rewrite Hi. simpl. rewrite Hattr. reflexivity.
Qed.

(** X18: the directory branch does not translate the failures of its
    loaders: when the model loader raises, [pack] on an existing directory
    raises that very exception, an [OSError] included, and changes
    nothing. *)
Theorem pack_directory_loader_failure p opts w mt tt h b :
  isdir p (fs w) = true ->
  _model_type (self w) = Some mt ->
  _tokenizer_type (self w) = Some tt ->
  opts !! embedder_key = Some h ->
  transformers_installed X = true ->
  transformers_hasattr X mt = true ->
  from_pretrained X mt p (fs w) = inl b ->
  pack X (VStr p) (Some opts) w = (inl (Raised b), w).
Proof.
  intros Hdir Hmt Htt Hh Hi Hamt Hm.
  apply pack_raises_of_dispatch with (w' := w). simpl.
  unfold pack_dispatch. unfold bind, get_fs. rewrite Hdir.
  unfold _load_from_directory, import_transformers, transformers_getattr,
    call_from_pretrained, contains.
  run_monad. rewrite Hmt, Htt, Hh, Hi. simpl. rewrite Hmt, Hamt. simpl.
  by rewrite Hm.
Qed.

End Properties.

(** * The properties on the concrete setting *)

(** A directory source whose three objects load: the bundle is stored, the
    options file is created empty, and the lookup of [json] raises. *)
Example pack_directory_run :
  let r := pack Demo.externals (VStr "/tmp/x") (Some Demo.embedder_opts) Demo.typed in
  fst r = inl (Raised (NameError "name 'json' is not defined")) /\
  _model (self (snd r))
    = bundle (VInst Demo.bert_model) (VInst Demo.bert_tokenizer) (VInst Demo.use_embedder) /\
  files (fs (snd r)) !! "/tmp/x/package_opts.json" = Some EmptyString.
Proof. vm_compute. repeat split; reflexivity. Qed.

(** A registry name is not a directory, so the options file cannot be
    opened under it. *)
Example pack_registry_name_run :
  fst (pack Demo.externals (VStr "bert-base-uncased") (Some Demo.embedder_opts) Demo.w0)
  = inl (Raised (FileNotFoundError "bert-base-uncased/package_opts.json")).
Proof. vm_compute. reflexivity. Qed.

(** A failure of a loader that is neither an [EnvironmentError] nor an
    [AttributeError] passes through [_load_from_string]. *)
Example load_from_string_other_error_run :
  _load_from_string Demo.externals "broken-model" Demo.embedder_opts Demo.w0
  = (inl (Raised (OtherError "ValueError" "Unrecognized configuration class")), Demo.w0).
Proof. vm_compute. reflexivity. Qed.

(** The test on the module name is a test of its first twelve characters:
    a class of a package whose name merely begins with [transformers]
    passes it. *)
Example prefix_test_accepts_sibling_package :
  from_transformers
    (VInst {| inst_id := 4; cls_module := "transformers_interpret.explainer";
              cls_name := "QuestionAnsweringExplainer"; inst_truthy := true |})
  = true.
Proof. reflexivity. Qed.

Lemma pack_valid_dict_raises_witness :
  pack Demo.externals (VDict Demo.the_bundle) None Demo.w0
  = (inl (Raised (TypeError "expected str, bytes or os.PathLike object, not dict")),
     with_model (VDict Demo.the_bundle) Demo.w0)
  /\ fst (get (with_model (VDict Demo.the_bundle) Demo.w0)) = inr (VDict Demo.the_bundle).
Proof.
  apply (pack_valid_dict_raises Demo.externals Demo.the_bundle None Demo.w0);
    vm_compute; reflexivity.
Defined.

Lemma save_then_load_raises_witness :
  let w1 := snd (save Demo.externals "/tmp/x" Demo.packed) in
  exists e,
    load Demo.externals "/tmp/x" w1 = (inl e, w1) /\
    (e = Raised (NameError "name 'json' is not defined")
     \/ exists c m, e = Raised (EnvironmentError c m)) /\
    get (snd (load Demo.externals "/tmp/x" w1)) = (inr (VDict Demo.other_bundle), w1).
Proof.
  apply (save_then_load_raises Demo.externals "/tmp/x" Demo.packed Demo.other_bundle
           "/tmp/x/qa").
  - reflexivity.
  - vm_compute. reflexivity.
Defined.

Lemma pack_unsupported_source_witness :
  pack Demo.externals (VInt 3) None Demo.packed
  = (inl (InvalidArgument msg_bad_source), Demo.packed).
Proof.
  apply (pack_unsupported_source Demo.externals (VInt 3) None Demo.packed);
    reflexivity.
Defined.




Lemma pack_dict_missing_key_witness :
  exists k',
    first_missing Demo.no_tokenizer = Some k' /\
    In k' bundle_keys /\
    truthy (dict_get Demo.no_tokenizer k') = false /\
    pack Demo.externals (VDict Demo.no_tokenizer) None Demo.w0
    = (inl (InvalidArgument (msg_key_not_found k')), Demo.w0) /\
    ((forall j, In j bundle_keys -> j <> "tokenizer" ->
        truthy (dict_get Demo.no_tokenizer j) = true) -> k' = "tokenizer").
Proof.
  apply (pack_dict_missing_key Demo.externals Demo.no_tokenizer None Demo.w0 "tokenizer").
  - simpl. right. left. reflexivity.
  - vm_compute. reflexivity.
Defined.


Lemma pack_directory_without_embedder_path_witness :
  (exists msg, pack Demo.externals (VStr "/tmp/x") None Demo.typed
               = (inl (NotFound msg), Demo.typed)) /\
  pack Demo.externals (VStr "/tmp/x") None Demo.typed
  = (inl (NotFound msg_no_embedder_path), Demo.typed).
Proof.
  split.
  - apply (pack_directory_without_embedder_path Demo.externals "/tmp/x" None Demo.typed);
      vm_compute; reflexivity.
  - vm_compute. reflexivity.
Defined.

Lemma load_from_string_translates_witness :
  _load_from_string Demo.externals "no-such-model" Demo.embedder_opts Demo.w0
  = (inl (NotFound (msg_not_in_library "no-such-model")), Demo.w0).
Proof.
  refine (proj1 (load_from_string_translates Demo.externals "no-such-model"
                   Demo.embedder_opts Demo.w0
                   (Raised (EnvironmentError "OSError" "Can't load config for 'no-such-model'"))
                   Demo.w0 _ _) "OSError" "Can't load config for 'no-such-model'" eq_refl);
    vm_compute; reflexivity.
Defined.

Lemma save_writes_class_names_witness :
  let w' := snd (save Demo.externals "/tmp/x" Demo.packed) in
  "/tmp/x/qa" = path_join "/tmp/x" (name (self Demo.packed)) /\
  _model_type (self w') = Some (class_name (dict_get Demo.other_bundle "model")) /\
  _tokenizer_type (self w') = Some (class_name (dict_get Demo.other_bundle "tokenizer")) /\
  files (fs w') !! path_join "/tmp/x/qa" "_model_type.txt"
    = Some (class_name (dict_get Demo.other_bundle "model")) /\
  files (fs w') !! path_join "/tmp/x/qa" "tokenizer_type.txt"
    = Some (class_name (dict_get Demo.other_bundle "tokenizer")) /\
  _model (self w') = VDict Demo.other_bundle.
Proof.
  apply (save_writes_class_names Demo.externals "/tmp/x" Demo.packed Demo.other_bundle
           "/tmp/x/qa" (snd (save Demo.externals "/tmp/x" Demo.packed))).
  - reflexivity.
  - vm_compute. reflexivity.
Defined.

Lemma load_from_directory_model_type_branch_dead_witness :
  (exists t, _model_type (self Demo.session) = Some t) /\
  (forall p opts msg w',
     _load_from_directory Demo.externals p opts Demo.session = (inl (NotFound msg), w') ->
     (msg = msg_no_tokenizer_type /\ _tokenizer_type (self Demo.session) = None)
     \/ (msg = msg_no_embedder_path /\ contains opts embedder_key = false)).
Proof.
  apply (load_from_directory_model_type_branch_dead Demo.externals Demo.session).
  unfold Demo.session. apply reach_call. apply reach_call.
  apply (reach_init Demo.externals "qa" Demo.tmp_fs Demo.fresh). reflexivity.
Defined.

(** * The further properties on the concrete setting *)

Lemma pack_registry_name_without_embedder_path_witness :
  pack Demo.externals (VStr "bert-base-uncased") None Demo.w0
  = (inl (NotFound msg_no_embedder_path), Demo.w0).
Proof.
  apply (pack_registry_name_without_embedder_path Demo.externals
           "bert-base-uncased" None Demo.w0); vm_compute; reflexivity.
Defined.

Lemma pack_directory_on_new_adapter_witness :
  pack Demo.externals (VStr "/tmp/x") (Some Demo.embedder_opts)
    {| self := Demo.fresh; fs := Demo.tmp_fs |}
  = (inl (NotFound msg_no_tokenizer_type), {| self := Demo.fresh; fs := Demo.tmp_fs |}).
Proof.
  apply (pack_directory_on_new_adapter Demo.externals "qa" Demo.fresh Demo.tmp_fs
           "/tmp/x" (Some Demo.embedder_opts)); vm_compute; reflexivity.
Defined.

Lemma pack_string_truncates_options_file_witness :
  let w1 := with_model (bundle (VInst Demo.bert_model) (VInst Demo.bert_tokenizer)
                          (VInst Demo.use_embedder)) Demo.typed in
  pack Demo.externals (VStr "/tmp/x") (Some Demo.embedder_opts) Demo.typed
  = (inl (Raised (NameError "name 'json' is not defined")),
     with_fs {| files := <[options_path "/tmp/x" := EmptyString]> (files (fs Demo.typed));
                dirs := dirs (fs Demo.typed) |} w1)
  /\ files (fs (snd (pack Demo.externals (VStr "/tmp/x") (Some Demo.embedder_opts)
                       Demo.typed))) !! options_path "/tmp/x" = Some EmptyString.
Proof.
  apply (pack_string_truncates_options_file Demo.externals "/tmp/x"
           (Some Demo.embedder_opts) Demo.typed); vm_compute; reflexivity.
Defined.


Lemma pack_registry_name_branch_loads_witness :
  pack_dispatch Demo.externals (VStr "bert-base-uncased") Demo.embedder_opts Demo.w0
  = (inr (), with_model (bundle (VInst Demo.bert_model) (VInst Demo.bert_tokenizer)
                           (VInst Demo.use_embedder)) Demo.w0).
Proof.
  apply (pack_registry_name_branch_loads Demo.externals "bert-base-uncased"
           Demo.embedder_opts Demo.w0 "AutoModelForQuestionAnswering"
           (VStr "/models/use"));
    vm_compute; reflexivity.
Defined.

Lemma save_unpacked_raises_witness :
  (exists e w', save Demo.externals "/tmp/x" Demo.w0 = (inl e, w')
                /\ self w' = self Demo.w0) /\
  (fst (makedirs (path_join "/tmp/x" (name (self Demo.w0))) Demo.w0) = inr () ->
   save Demo.externals "/tmp/x" Demo.w0
   = (inl (Raised (AttributeError "'NoneType' object has no attribute 'get'")),
      snd (makedirs (path_join "/tmp/x" (name (self Demo.w0))) Demo.w0))).
Proof.
  apply (save_unpacked_raises Demo.externals "/tmp/x" Demo.w0). reflexivity.
Defined.

Lemma save_failure_keeps_new_types_witness :
  save Demo.full_disk "/tmp/x" Demo.packed
  = (inl (Raised (EnvironmentError "OSError" "No space left on device")),
     with_type_names (cls_name Demo.bert_model)
       (class_name (dict_get Demo.other_bundle "tokenizer"))
       (snd (makedirs (path_join "/tmp/x" (name (self Demo.packed))) Demo.packed))).
Proof.
  apply (save_failure_keeps_new_types Demo.full_disk "/tmp/x" Demo.packed
           Demo.other_bundle Demo.bert_model
           (EnvironmentError "OSError" "No space left on device"));
    vm_compute; reflexivity.
Defined.

Lemma save_succeeds_witness :
  let path := path_join "/tmp/x" (name (self Demo.packed)) in
  let f1 := fs (snd (makedirs path Demo.packed)) in
  let f2 := Demo.add_file (path_join path "BertForQuestionAnswering.bin") "weights" f1 in
  let f3 := Demo.add_file (path_join path "BertTokenizer.bin") "weights" f2 in
  let f4 := Demo.add_file (path_join path "saved_model.pb") "graph" f3 in
  save Demo.externals "/tmp/x" Demo.packed
  = (inr path,
     with_fs (write_file (path_join path "tokenizer_type.txt") (cls_name Demo.bert_tokenizer)
                (write_file (path_join path "_model_type.txt") (cls_name Demo.bert_model) f4))
       (with_type_names (cls_name Demo.bert_model) (cls_name Demo.bert_tokenizer)
          Demo.packed)).
Proof.
  intros path f1 f2 f3 f4.
  apply (save_succeeds Demo.externals "/tmp/x" Demo.packed Demo.other_bundle
           Demo.bert_model Demo.bert_tokenizer f2 f3 f4);
    vm_compute; reflexivity.
Defined.

Lemma save_then_pack_directory_witness :
  let w1 := snd (save Demo.externals "/tmp/x" Demo.packed) in
  pack_dispatch Demo.externals (VStr "/tmp/x/qa") Demo.embedder_opts w1
  = (inr (), with_model (bundle (VInst Demo.bert_model) (VInst Demo.bert_tokenizer)
                           (VInst Demo.use_embedder)) w1).
Proof.
  apply (save_then_pack_directory Demo.externals "/tmp/x" Demo.packed Demo.other_bundle
           "/tmp/x/qa" (snd (save Demo.externals "/tmp/x" Demo.packed))
           Demo.embedder_opts (VStr "/models/use"));
    vm_compute; reflexivity.
Defined.

Lemma reachable_bundle_shape_witness :
  fst (get Demo.session) = inr (VDict Demo.the_bundle) /\
  (VDict Demo.the_bundle = VNone \/
   exists d, VDict Demo.the_bundle = VDict d
             /\ forall k, In k bundle_keys -> is_Some (d !! k)).
Proof.
  split; [vm_compute; reflexivity|].
  apply (reachable_bundle_shape Demo.externals Demo.session).
  - unfold Demo.session. apply reach_call. apply reach_call.
    apply (reach_init Demo.externals "qa" Demo.tmp_fs Demo.fresh). reflexivity.
  - vm_compute. reflexivity.
Defined.


Lemma pack_registry_name_default_type_missing_witness :
  pack Demo.old_library (VStr "bert-base-uncased") (Some Demo.embedder_opts)
    {| self := Demo.fresh; fs := Demo.tmp_fs |}
  = (inl (NotFound (msg_no_such_type (Some "AutoModelForQuestionAnswering"))),
     {| self := Demo.fresh; fs := Demo.tmp_fs |}).
Proof.
  apply (pack_registry_name_default_type_missing Demo.old_library "qa" Demo.fresh
           Demo.tmp_fs "bert-base-uncased" Demo.embedder_opts);
    vm_compute; reflexivity.
Defined.

Lemma pack_directory_loader_failure_witness :
  pack Demo.externals (VStr "no-such-model") (Some Demo.embedder_opts) Demo.typed_missing
  = (inl (Raised (EnvironmentError "OSError" "Can't load config for 'no-such-model'")),
     Demo.typed_missing).
Proof.
  apply (pack_directory_loader_failure Demo.externals "no-such-model" Demo.embedder_opts
           Demo.typed_missing "BertForQuestionAnswering" "BertTokenizer"
           (VStr "/models/use"));
    vm_compute; reflexivity.
Defined.
